(** * OllamaVision GUI: gateway client and connection state

    A shallow embedding of [ollamavision_gui.py]: the [OllamaVisionAPI]
    client (session token, request bodies, error normalisation) and the
    part of [OllamaVisionGUI] that owns the connection state, the model
    catalog, the model filter and the settings document.

    Conventions.
    - Python [str] is [string]; a non-ASCII character is its UTF-8 bytes,
      so comparison by bytes is comparison by code point.  [lower] and
      [strip] act on the ASCII range only.
    - A Python dict that goes over the wire is a [gmap string json].
    - Methods are computations in a state-and-exception monad [M S]; the
      state of a client method is the client object and the network, the
      state of a GUI method is the whole application [App].
    - The network is an oracle [server] giving the outcome of the n-th
      request, and a log [sent] of the requests issued so far. *)

From Stdlib Require Import Ascii PrimFloat.
From Stdlib Require String.
From stdpp Require Import gmap strings list sorting pretty.
From coqutil Require Import Datatypes.RecordSetters.
Import TriangleBracketNotations.

Set Warnings "-inexact-float".

(** ** Python strings *)

Module Py.

Definition between (lo hi : nat) (a : ascii) : bool :=
  let n := nat_of_ascii a in (lo <=? n)%nat && (n <=? hi)%nat.

(** [str.lower], on ASCII letters. *)
Definition lower_ascii (a : ascii) : ascii :=
  if between 65 90 a then ascii_of_nat (nat_of_ascii a + 32) else a.

Fixpoint lower (s : string) : string :=
  match s with
  | EmptyString => EmptyString
  | String a s' => String (lower_ascii a) (lower s')
  end.

(** [str.isspace], on the ASCII range: TAB..CR, FS..US and the space. *)
Definition isspace (a : ascii) : bool := between 9 13 a || between 28 32 a.

Fixpoint lstrip (p : ascii → bool) (s : string) : string :=
  match s with
  | EmptyString => EmptyString
  | String a s' => if p a then lstrip p s' else s
  end.

Fixpoint rstrip (p : ascii → bool) (s : string) : string :=
  match s with
  | EmptyString => EmptyString
  | String a s' =>
      match rstrip p s' with
      | EmptyString => if p a then EmptyString else String a EmptyString
      | r => String a r
      end
  end.

(** [s.strip()] *)
Definition strip (s : string) : string := lstrip isspace (rstrip isspace s).

(** [s.rstrip('/')] *)
Definition rstrip_slash (s : string) : string := rstrip (Ascii.eqb "/"%char) s.

(** [needle in hay] on strings. *)
Fixpoint contains (needle hay : string) : bool :=
  String.prefix needle hay ||
  match hay with
  | EmptyString => false
  | String _ hay' => contains needle hay'
  end.

(** [bool(s)] for a string. *)
Definition nonempty (s : string) : bool := negb (String.eqb s "").

(** [x in l] for a list of strings. *)
Definition mem (x : string) (l : list string) : bool := bool_decide (x ∈ l).

(** [l.sort()] on strings: ascending by code point.  Python's sort is
    stable, and so is the merge sort used here. *)
Definition str_le (a b : string) : Prop := String.leb a b = true.

Global Instance str_le_dec a b : Decision (str_le a b).
Proof. unfold str_le. apply _. Defined.

Global Instance str_le_total : Total str_le.
Proof. intros x y. apply String.leb_total. Qed.

Lemma ascii_compare_eq a b : Ascii.compare a b = Eq ↔ a = b.
Proof.
  split; [apply Ascii.compare_eq_iff|]. intros ->.
  unfold Ascii.compare. apply N.compare_refl.
Qed.

Lemma ascii_compare_lt_trans a b c :
  Ascii.compare a b = Lt → Ascii.compare b c = Lt → Ascii.compare a c = Lt.
Proof. unfold Ascii.compare. rewrite !N.compare_lt_iff. lia. Qed.

Lemma string_compare_lt_trans a : ∀ b c,
  String.compare a b = Lt → String.compare b c = Lt → String.compare a c = Lt.
Proof.
  induction a as [|x a IH]; intros [|y b] [|z c]; simpl; try done.
  destruct (Ascii.compare x y) eqn:Hxy; try done.
  - apply ascii_compare_eq in Hxy as ->.
    destruct (Ascii.compare y z); try done. apply IH.
  - destruct (Ascii.compare y z) eqn:Hyz; try done.
    + apply ascii_compare_eq in Hyz as <-. by rewrite Hxy.
    + by rewrite (ascii_compare_lt_trans _ _ _ Hxy Hyz).
Qed.

Global Instance str_le_trans : Transitive str_le.
Proof.
  intros a b c. unfold str_le, String.leb.
  destruct (String.compare a b) eqn:Hab; try done;
    destruct (String.compare b c) eqn:Hbc; try done; intros _ _.
  - apply String.compare_eq_iff in Hab as ->. by rewrite Hbc.
  - apply String.compare_eq_iff in Hab as ->. by rewrite Hbc.
  - apply String.compare_eq_iff in Hbc as <-. by rewrite Hab.
  - by rewrite (string_compare_lt_trans _ _ _ Hab Hbc).
Qed.

Definition sort (l : list string) : list string := merge_sort str_le l.

End Py.

(** ** JSON values and dicts *)

Inductive json : Type :=
  | JNull
  | JBool (b : bool)
  | JInt (z : Z)
  | JFloat (f : float)
  | JStr (s : string)
  | JArr (l : list json)
  | JObj (m : gmap string json).

Abbreviation dict := (gmap string json).

(** Python truth value of a decoded JSON value. *)
Definition truthy (v : json) : bool :=
  match v with
  | JNull => false
  | JBool b => b
  | JInt z => negb (z =? 0)%Z
  | JFloat f => negb (PrimFloat.eqb f 0%float)
  | JStr s => Py.nonempty s
  | JArr l => match l with [] => false | _ => true end
  | JObj m => match map_to_list m with [] => false | _ => true end
  end.

(** [d.get(k, dflt)] *)
Definition dict_get (d : dict) (k : string) (dflt : json) : json :=
  default dflt (d !! k).

(** A [str | None] argument as the value put into a dict. *)
Definition opt_str (o : option string) : json :=
  match o with Some s => JStr s | None => JNull end.

(** ** Exceptions and the method monad *)

Inductive exn_class :=
  | RequestException   (* requests.exceptions.RequestException and subclasses *)
  | Exception          (* raised with [raise Exception(...)] *)
  | AttributeError
  | TypeError
  | KeyError
  | IndexError
  | OSError.

Global Instance exn_class_eq_dec : EqDecision exn_class.
Proof. solve_decision. Defined.

Record exn := Raise { exn_class_of : exn_class; exn_str : string }.

Inductive res (A : Type) : Type :=
  | Val (a : A)
  | Exn (e : exn).
Arguments Val {A} a.
Arguments Exn {A} e.

Definition M (S A : Type) : Type := S → res A * S.

Global Instance M_ret {S} : MRet (M S) := λ A a s, (Val a, s).

Global Instance M_bind {S} : MBind (M S) := λ A B f m s,
  match m s with
  | (Val a, s') => f a s'
  | (Exn e, s') => (Exn e, s')
  end.

Definition raise {S A} (c : exn_class) (msg : string) : M S A :=
  λ s, (Exn (Raise c msg), s).

Definition get_state {S} : M S S := λ s, (Val s, s).
Definition modify {S} (f : S → S) : M S unit := λ s, (Val tt, f s).

(** [try: body  except cls as e: handler e]; [except Exception] is
    [try_except_all]. State changes made by [body] before it raised stay. *)
Definition try_except {S A} (body : M S A) (cls : exn_class) (handler : exn → M S A)
  : M S A := λ s,
  match body s with
  | (Exn e, s') =>
      if decide (exn_class_of e = cls) then handler e s' else (Exn e, s')
  | r => r
  end.

Definition try_except_all {S A} (body : M S A) (handler : exn → M S A) : M S A :=
  λ s,
  match body s with
  | (Exn e, s') => handler e s'
  | r => r
  end.

(** [d[k]] *)
Definition getitem {S} (d : dict) (k : string) : M S json :=
  match d !! k with
  | Some v => mret v
  | None => raise KeyError k
  end.

(** ** The network *)

Inductive http_method := GET | POST.

Record request := Request {
  req_method : http_method;
  req_url : string;
  req_headers : gmap string string;
  req_json : option dict;
  req_timeout : Z
}.

(** What [requests.get/post] followed by [raise_for_status()] and
    [response.json()] gives: the decoded JSON object of a 2xx answer, or a
    [RequestException] (connection refused, timeout, non-2xx status, body
    that is not JSON) with its text. *)
Inductive http_outcome :=
  | Response (data : dict)
  | Failure (cause : string).

Record Net := {
  server : nat → request → http_outcome;
  sent : list request
}.

(** ** class OllamaVisionAPI *)

Record OllamaVisionAPI := {
  base_url : string;
  session_id : json          (* [None] is [JNull] *)
}.

(** [OllamaVisionAPI(base_url)]; [self.headers] never changes. *)
Definition new_api (url : string) : OllamaVisionAPI :=
  {| base_url := Py.rstrip_slash url; session_id := JNull |}.

Definition api_headers : gmap string string :=
  {[ "Content-Type" := "application/json" ]}.

Definition default_swarmui_url : string := "http://localhost:7801".
Definition default_ollama_url : string := "http://localhost:11434".
Definition default_textgen_url : string := "http://localhost:5000".
Definition default_site_name : string := "SwarmUI".

(** State of a client method: the client object and the network. *)
Abbreviation API := (M (OllamaVisionAPI * Net)).

(** One HTTP exchange: the request is logged, the oracle answers. *)
Definition http (r : request) : API dict := λ '(api, n),
  let n' := n <| sent := sent n ++ [r] |> in
  match server n (length (sent n)) r with
  | Response data => (Val data, (api, n'))
  | Failure cause => (Exn (Raise RequestException cause), (api, n'))
  end.

Definition requests_post (url : string) (hdrs : gmap string string)
    (body : dict) (timeout : Z) : API dict :=
  http (Request POST url hdrs (Some body) timeout).

Definition requests_get (url : string) (hdrs : gmap string string)
    (timeout : Z) : API dict :=
  http (Request GET url hdrs None timeout).

Definition self_api : API OllamaVisionAPI := λ '(api, n), (Val api, (api, n)).

Definition set_session_id (v : json) : API unit :=
  modify (λ '(api, n), (api <| session_id := v |>, n)).

Definition get_swarmui_session : API dict :=
  try_except
    (self ← self_api;
     let url := base_url self +:+ "/API/GetNewSession" in
     data ← requests_post url api_headers ∅ 60;
     match data !! "session_id" with
     | Some sid =>
         set_session_id sid;;
         mret ({[ "success" := JBool true; "session_id" := sid;
                  "data" := JObj data ]} : dict)
     | None =>
         mret ({[ "success" := JBool false;
                  "message" := JStr "No session_id in response" ]} : dict)
     end)
    RequestException
    (λ e, mret ({[ "success" := JBool false;
                   "message" := JStr ("Failed to get SwarmUI session: " +:+ exn_str e) ]}
                : dict)).

Definition get_session_id : API json :=
  self ← self_api; mret (session_id self).

(** The body [make_request] puts on the wire for the caller's [data]. *)
Definition data_with_session (self : OllamaVisionAPI) (data : dict) : dict :=
  if truthy (session_id self) then <["session_id" := session_id self]> data
  else data.

Definition make_request (endpoint : string) (data : dict) : API dict :=
  self ← self_api;
  let url := base_url self +:+ "/API/" +:+ endpoint in
  try_except
    (requests_post url api_headers (data_with_session self data) 120)
    RequestException
    (λ e, raise Exception ("API request failed: " +:+ exn_str e)).

Definition connect_ollama_data (ollama_url : string) (show_all : bool) : dict :=
  {[ "ollamaUrl" := JStr ollama_url; "showAllModels" := JBool show_all ]}.

Definition connect_ollama (ollama_url : string) (show_all : bool) : API dict :=
  make_request "ConnectToOllamaAsync" (connect_ollama_data ollama_url show_all).

Definition connect_textgen_data (textgen_url : string) : dict :=
  {[ "textgenUrl" := JStr textgen_url ]}.

Definition connect_textgen (textgen_url : string) : API dict :=
  make_request "ConnectToTextGenAsync" (connect_textgen_data textgen_url).

(** [if system_prompt: data["systemPrompt"] = system_prompt] *)
Definition add_system_prompt (system_prompt : option string) (data : dict) : dict :=
  match system_prompt with
  | Some p => if Py.nonempty p then <["systemPrompt" := JStr p]> data else data
  | None => data
  end.

(** The backend branch shared by the three generation calls:
    [if backend_type == "ollama": ... elif backend_type in ["openai",
    "openrouter"]: ...]. *)
Definition add_backend_fields (backend_type ollama_url : string)
    (api_key : option string) (site_name : string) (data : dict) : dict :=
  if String.eqb backend_type "ollama" then
    <["ollamaUrl" := JStr ollama_url]> data
  else if String.eqb backend_type "openai" || String.eqb backend_type "openrouter" then
    let data := <["apiKey" := opt_str api_key]> data in
    if String.eqb backend_type "openrouter" then
      <["siteName" := JStr site_name]> data
    else data
  else data.

Definition analyze_image_data (image_data model backend_type prompt : string)
    (temperature : float) (max_tokens : Z) (ollama_url : string)
    (api_key : option string) (site_name : string)
    (system_prompt : option string) : dict :=
  let data : dict :=
    {[ "model" := JStr model;
       "backendType" := JStr backend_type;
       "imageData" := JStr image_data;
       "prompt" := JStr prompt;
       "temperature" := JFloat temperature;
       "maxTokens" := JInt max_tokens ]} in
  add_backend_fields backend_type ollama_url api_key site_name
    (add_system_prompt system_prompt data).

Definition analyze_image (image_data model backend_type prompt : string)
    (temperature : float) (max_tokens : Z) (ollama_url : string)
    (api_key : option string) (site_name : string)
    (system_prompt : option string) : API dict :=
  make_request "AnalyzeImageAsync"
    (analyze_image_data image_data model backend_type prompt temperature
       max_tokens ollama_url api_key site_name system_prompt).

Definition batch_caption_images_data (folder_path model backend_type
    caption_style trigger_word : string) (temperature : float) (max_tokens : Z)
    (ollama_url : string) (api_key : option string) (site_name : string) : dict :=
  let data : dict :=
    {[ "folderPath" := JStr folder_path;
       "model" := JStr model;
       "backendType" := JStr backend_type;
       "captionStyle" := JStr caption_style;
       "triggerWord" := JStr trigger_word;
       "temperature" := JFloat temperature;
       "maxTokens" := JInt max_tokens ]} in
  add_backend_fields backend_type ollama_url api_key site_name data.

Definition batch_caption_images (folder_path model backend_type
    caption_style trigger_word : string) (temperature : float) (max_tokens : Z)
    (ollama_url : string) (api_key : option string) (site_name : string)
  : API dict :=
  make_request "BatchCaptionImagesAsync"
    (batch_caption_images_data folder_path model backend_type caption_style
       trigger_word temperature max_tokens ollama_url api_key site_name).

Definition enhance_text_prompt_data (model backend_type prompt : string)
    (temperature : float) (max_tokens : Z) (ollama_url : string)
    (api_key : option string) (site_name : string)
    (system_prompt : option string) : dict :=
  let data : dict :=
    {[ "model" := JStr model;
       "backendType" := JStr backend_type;
       "prompt" := JStr prompt;
       "temperature" := JFloat temperature;
       "maxTokens" := JInt max_tokens ]} in
  add_backend_fields backend_type ollama_url api_key site_name
    (add_system_prompt system_prompt data).

Definition enhance_text_prompt (model backend_type prompt : string)
    (temperature : float) (max_tokens : Z) (ollama_url : string)
    (api_key : option string) (site_name : string)
    (system_prompt : option string) : API dict :=
  make_request "EnhanceTextPromptAsync"
    (enhance_text_prompt_data model backend_type prompt temperature max_tokens
       ollama_url api_key site_name system_prompt).

(** [for model in data.get("data", [])]: the entries the loop visits.
    Iterating a non-empty str or dict yields str items, on which [.get]
    raises AttributeError; numbers, booleans and null are not iterable. *)
Definition iter_entries (v : json) : API (list json) :=
  match v with
  | JArr l => mret l
  | JStr s => if Py.nonempty s then raise AttributeError "'str' object has no attribute 'get'"
              else mret []
  | JObj m => if truthy (JObj m) then raise AttributeError "'str' object has no attribute 'get'"
              else mret []
  | _ => raise TypeError "object is not iterable"
  end.

(** The loop body: [model_id = model.get("id", ""); if model_id:
    all_models.append(model_id)]. *)
Definition append_model_id (model : json) (all_models : list json) : API (list json) :=
  match model with
  | JObj m =>
      let model_id := dict_get m "id" (JStr "") in
      mret (if truthy model_id then all_models ++ [model_id] else all_models)
  | _ => raise AttributeError "object has no attribute 'get'"
  end.

Fixpoint collect_model_ids (entries : list json) (all_models : list json)
  : API (list json) :=
  match entries with
  | [] => mret all_models
  | model :: rest =>
      all_models ← append_model_id model all_models;
      collect_model_ids rest all_models
  end.

Definition bearer_headers (api_key : string) : gmap string string :=
  {[ "Authorization" := "Bearer " +:+ api_key;
     "Content-Type" := "application/json" ]}.

Definition openai_models_url : string := "https://api.openai.com/v1/models".
Definition openrouter_models_url : string := "https://openrouter.ai/api/v1/models".

(** [get_openai_models] and [get_openrouter_models] differ in the URL and
    in the provider name of the failure message only. *)
Definition get_provider_models (url provider api_key : string) : API dict :=
  try_except
    (data ← requests_get url (bearer_headers api_key) 60;
     entries ← iter_entries (dict_get data "data" (JArr []));
     all_models ← collect_model_ids entries [];
     mret ({[ "success" := JBool true; "models" := JArr all_models ]} : dict))
    RequestException
    (λ e, mret ({[ "success" := JBool false;
                   "message" := JStr ("Failed to fetch " +:+ provider +:+ " models: "
                                      +:+ exn_str e) ]} : dict)).

Definition get_openai_models (api_key : string) : API dict :=
  get_provider_models openai_models_url "OpenAI" api_key.

Definition get_openrouter_models (api_key : string) : API dict :=
  get_provider_models openrouter_models_url "OpenRouter" api_key.

Definition reset_session_api (py_str : json → string) : API json :=
  result ← get_swarmui_session;
  ok ← getitem result "success";
  if truthy ok then get_session_id
  else
    msg ← getitem result "message";
    raise Exception ("Failed to get new session: " +:+ py_str msg).

(** ** class OllamaVisionGUI: the state *)

Inductive dialog_kind := showerror | showwarning | showinfo.

(** One [messagebox] call. *)
Record dialog := Dialog {
  dlg_kind : dialog_kind;
  dlg_title : string;
  dlg_message : string
}.

(** The attributes of [self] that the connection, catalog, request and
    settings code reads or writes.  A Tk variable is the value it holds, a
    text widget its content, the listbox its items and its selected index.
    Widget layout and styling ([update_connection_fields],
    [update_connection_button], the progress labels) is left out. *)
Record GUI := {
  api : option OllamaVisionAPI;            (* [None] after disconnect *)
  current_image_data : option string;
  available_models : list string;
  openai_api_key : string;
  openrouter_api_key : string;
  textgen_url : string;
  selected_model : option string;
  is_connected : bool;
  all_models : list string;
  filtered_models : list string;
  temperature_var : float;
  max_tokens_var : Z;
  top_p_var : float;
  top_k_var : Z;
  repeat_penalty_var : float;
  seed_var : Z;
  frequency_penalty_var : float;
  presence_penalty_var : float;
  min_p_var : float;
  top_a_var : float;
  default_model_var : string;
  wan_i2v_var : bool;
  swarmui_url_var : string;
  backend_var : string;
  ollama_url_var : string;
  api_key_var : string;
  session_id_var : string;
  model_search_var : string;
  model_count_var : string;
  model_info_var : string;
  default_model_display_var : string;
  models_listbox : list string;
  listbox_curselection : option nat;
  prompt_var : string;
  single_image_model_var : string;
  image_analysis_text : string;
  folder_path_var : string;
  caption_style_var : string;
  trigger_word_var : string;
  batch_model_var : string;
  enhancement_type_var : string;
  text_model_var : string;
  text_input : string;
  text_results_text : string;
  dialogs : list dialog
}.

(** The settings file [ollamavision_settings.json], as a typed view of the
    flat JSON object: a field is [None] when its key is missing, and a
    present value has the type [save_settings] writes.  [json.dump] followed
    by [json.load] is taken to give the object back. *)
Record Settings := {
  st_swarmui_url : option string;
  st_backend : option string;
  st_ollama_url : option string;
  st_api_key : option string;
  st_default_model : option string;
  st_session_id : option string;
  st_openai_api_key : option string;
  st_openrouter_api_key : option string;
  st_textgen_url : option string;
  st_temperature : option float;
  st_max_tokens : option Z;
  st_top_p : option float;
  st_top_k : option Z;
  st_repeat_penalty : option float;
  st_seed : option Z;
  st_frequency_penalty : option float;
  st_presence_penalty : option float;
  st_min_p : option float;
  st_top_a : option float
}.

(** The application and its surroundings: the GUI object, the network,
    the settings file (if it exists) and the directory listings
    [os.listdir] would give ([None]: it raises). *)
Record App := {
  gui : GUI;
  net : Net;
  settings_file : option Settings;
  folders : string → option (list string)
}.

Abbreviation Method := (M App).

Definition self_gui : Method GUI := λ a, (Val (gui a), a).

Definition update (f : GUI → GUI) : Method unit :=
  modify (λ a, a <| gui ::= f |>).

(** [self.api.method(...)]: the client method runs on the client object
    and the network; on [None] the attribute lookup raises. *)
Definition call {A} (m : API A) : Method A := λ a,
  match api (gui a) with
  | None => (Exn (Raise AttributeError "'NoneType' object has no attribute"), a)
  | Some c =>
      let '(r, (c', n')) := m (c, net a) in
      (r, a <| gui -> api := Some c' |> <| net := n' |>)
  end.

Definition messagebox (k : dialog_kind) (title msg : string) : Method unit :=
  update (λ g, g <| dialogs ::= (λ l, l ++ [Dialog k title msg]) |>).

(** A rendering of floats and containers for the examples below, in
    which none is rendered. *)
Definition plain_repr : json → string := λ _, "".

(** ** class OllamaVisionGUI: the methods *)

Section Methods.

(** Python's [str()] and Tk's conversion of a value to the text of a
    variable or widget are the identity on strings.  How they print
    floats, lists and dicts is not modelled: [py_repr] and [tcl_repr]
    stand for it. *)
Variables (py_repr tcl_repr : json → string).

(** The three built-in system prompts are string literals of the source
    (the "director" persona of [_analyze_image_thread], and the two
    personas of [get_enhancement_system_prompt]); the client treats them
    as opaque text. *)
Variables (wan_i2v_system_prompt qwen_system_prompt wan_system_prompt : string).

Definition py_str (v : json) : string :=
  match v with
  | JStr s => s
  | JNull => "None"
  | JBool b => if b then "True" else "False"
  | JInt z => pretty z
  | _ => py_repr v
  end.

Definition tk_str (v : json) : string :=
  match v with
  | JStr s => s
  | JNull => "None"
  | JBool b => if b then "1" else "0"
  | JInt z => pretty z
  | _ => tcl_repr v
  end.

Definition update_session_id_display : Method unit :=
  sid ← call get_session_id;
  update (λ g, g <| session_id_var := tk_str sid |>).

Definition reset_session : Method unit :=
  try_except_all
    (_ ← call (reset_session_api py_str); update_session_id_display)
    (λ e, mret tt).

Definition update_default_model_display : Method unit :=
  self ← self_gui;
  let default_model := Py.strip (default_model_var self) in
  update (λ g, g <| default_model_display_var :=
    if Py.nonempty default_model then "Default: " +:+ default_model
    else "No default model set" |>).

(** [get_selected_model]; the fallback reads the listbox selection. *)
Definition get_selected_model (self : GUI) : option string :=
  let fallback :=
    match listbox_curselection self with
    | Some i => if (i <? length (available_models self))%nat
                then available_models self !! i else None
    | None => None
    end in
  match selected_model self with
  | Some m => if Py.nonempty m then Some m else fallback
  | None => fallback
  end.

(** [bool(model)] for a [str | None]. *)
Definition model_truthy (model : option string) : bool :=
  match model with Some m => Py.nonempty m | None => false end.

Definition update_model_status_display : Method unit :=
  self ← self_gui;
  let model := get_selected_model self in
  let default_model := Py.strip (default_model_var self) in
  let model_name :=
    match model with
    | Some m =>
        if Py.nonempty m then
          if Py.nonempty default_model && String.eqb m default_model
          then "Default model: " +:+ m else m
        else "None selected"
    | None => "None selected"
    end in
  update (λ g, g <| single_image_model_var := model_name |>
                 <| batch_model_var := model_name |>
                 <| text_model_var := model_name |>
                 <| model_info_var := model_name |>).

Definition model_count_text (total_models filtered_count : nat) : string :=
  if (total_models =? 0)%nat then "No models loaded"
  else if (filtered_count =? total_models)%nat then
    "Showing " +:+ pretty total_models +:+ " models"
  else
    "Showing " +:+ pretty filtered_count +:+ " of " +:+ pretty total_models
      +:+ " models".

Definition update_models_display : Method unit :=
  update (λ g,
    g <| listbox_curselection := None |>
      <| models_listbox := filtered_models g |>
      <| available_models := filtered_models g |>
      <| model_count_var :=
           model_count_text (length (all_models g)) (length (filtered_models g)) |>).

(** [filter_models], the write trace of [model_search_var]. *)
Definition filter_models : Method unit :=
  self ← self_gui;
  let search_text := Py.lower (model_search_var self) in
  update (λ g, g <| filtered_models :=
    if negb (Py.nonempty search_text) then all_models g
    else filter (λ model, Py.contains search_text (Py.lower model) = true)
           (all_models g) |>);;
  update_models_display.

(** Writing the search variable (typing in the search box) fires the trace. *)
Definition set_model_search (text : string) : Method unit :=
  update (λ g, g <| model_search_var := text |>);;
  filter_models.

Definition clear_model_search : Method unit := set_model_search "".

(** [models = result["models"]; models.sort()].  The catalog is typed as
    a list of strings; a value that is not a list has no [sort], and a
    list with a member that is not a string is taken to be the mixed list
    on which [sort] raises TypeError. *)
Fixpoint as_strings (l : list json) : option (list string) :=
  match l with
  | [] => Some []
  | JStr s :: l' => cons s <$> as_strings l'
  | _ :: _ => None
  end.

Definition sorted_models (v : json) : Method (list string) :=
  match v with
  | JArr l =>
      match as_strings l with
      | Some models => mret (Py.sort models)
      | None => raise TypeError "'<' not supported"
      end
  | _ => raise AttributeError "object has no attribute 'sort'"
  end.

(** The common tail of the three loading branches. *)
Definition store_models (result : dict) : Method unit :=
  v ← getitem result "models";
  models ← sorted_models v;
  update (λ g, g <| all_models := models |> <| filtered_models := models |>);;
  update_models_display.

Definition load_models : Method unit :=
  update (λ g, g <| models_listbox := [] |> <| listbox_curselection := None |>
                 <| available_models := [] |>);;
  try_except_all
    (self ← self_gui;
     if String.eqb (backend_var self) "ollama" then
       result ← call (connect_ollama default_ollama_url true);
       if truthy (dict_get result "success" JNull)
          && bool_decide (is_Some (result !! "models"))
       then store_models result
       else mret tt
     else if String.eqb (backend_var self) "openai" then
       let api_key := api_key_var self in
       if negb (Py.nonempty api_key) then
         messagebox showerror "Error" "API key is required for OpenAI"
       else
         result ← call (get_openai_models api_key);
         if truthy (dict_get result "success" JNull) then store_models result
         else messagebox showerror "Error"
                ("Failed to fetch OpenAI models: "
                 +:+ py_str (dict_get result "message" (JStr "Unknown error")))
     else if String.eqb (backend_var self) "openrouter" then
       let api_key := api_key_var self in
       if negb (Py.nonempty api_key) then
         messagebox showerror "Error" "API key is required for OpenRouter"
       else
         result ← call (get_openrouter_models api_key);
         if truthy (dict_get result "success" JNull) then store_models result
         else messagebox showerror "Error"
                ("Failed to fetch OpenRouter models: "
                 +:+ py_str (dict_get result "message" (JStr "Unknown error")))
     else mret tt)
    (λ e, messagebox showerror "Error" ("Failed to load models: " +:+ exn_str e)).

(** Lines 921-941 of [connect_backend]: the backend branch.  [None] is
    the early [return] after a validation dialog. *)
Definition connect_backend_result : Method (option dict) :=
  self ← self_gui;
  if String.eqb (backend_var self) "ollama" then
    result ← call (connect_ollama (ollama_url_var self) true);
    mret (Some result)
  else if String.eqb (backend_var self) "textgen" then
    let textgen_url := ollama_url_var self in
    if negb (Py.nonempty textgen_url) then
      messagebox showerror "Error" "TextGen URL is required";; mret None
    else
      result ← call (connect_textgen textgen_url);
      mret (Some result)
  else if String.eqb (backend_var self) "openai"
          || String.eqb (backend_var self) "openrouter" then
    let api_key := api_key_var self in
    if negb (Py.nonempty api_key) then
      messagebox showerror "Error" "API key is required for external APIs";;
      mret None
    else
      mret (Some ({[ "success" := JBool true;
                     "message" := JStr "Connected to external API" ]} : dict))
  else
    mret (Some ({[ "success" := JBool false;
                   "message" := JStr "Unknown backend type" ]} : dict)).

(** Lines 949-965: select the default model, else the first one. *)
Definition select_default_model : Method unit :=
  self ← self_gui;
  match available_models self with
  | [] => mret tt
  | first_model :: _ =>
      let current_default := Py.strip (default_model_var self) in
      if Py.nonempty current_default
         && Py.mem current_default (available_models self)
      then
        update (λ g, g <| selected_model := Some current_default |>);;
        update_model_status_display
      else
        update (λ g, g <| selected_model := Some first_model |>);;
        update_model_status_display
  end.

Definition connect_backend : Method unit :=
  try_except_all
    (self ← self_gui;
     update (λ g, g <| api := Some (new_api (swarmui_url_var self)) |>);;
     session_result ← call get_swarmui_session;
     ok ← getitem session_result "success";
     if negb (truthy ok) then
       msg ← getitem session_result "message";
       messagebox showerror "Error"
         ("Failed to get SwarmUI session: " +:+ py_str msg)
     else
       update_session_id_display;;
       validated ← connect_backend_result;
       match validated with
       | None => mret tt
       | Some result =>
           if truthy (dict_get result "success" (JBool false)) then
             load_models;;
             update_default_model_display;;
             select_default_model;;
             update (λ g, g <| is_connected := true |>)
           else
             messagebox showerror "Error"
               ("Connection failed: "
                +:+ py_str (dict_get result "message" (JStr "Unknown error")))
       end)
    (λ e, messagebox showerror "Error" ("Connection failed: " +:+ exn_str e)).

Definition disconnect_backend : Method unit :=
  try_except_all
    (update (λ g, g <| is_connected := false |>
                    <| selected_model := None |>
                    <| available_models := [] |>
                    <| all_models := [] |>
                    <| filtered_models := [] |>
                    <| api := None |>);;
     update_model_status_display;;
     update_models_display;;
     update_default_model_display)
    (λ e, mret tt).

Definition toggle_connection : Method unit :=
  self ← self_gui;
  if is_connected self then disconnect_backend else connect_backend.

(** [on_model_select], the listbox selection event. *)
Definition on_model_select : Method unit :=
  self ← self_gui;
  match listbox_curselection self with
  | Some i =>
      match available_models self !! i with
      | Some model =>
          update (λ g, g <| selected_model := Some model |>);;
          update_model_status_display
      | None => raise IndexError "list index out of range"
      end
  | None => mret tt
  end.

(** Clicking the [i]-th line of the listbox. *)
Definition click_model (i : nat) : Method unit :=
  self ← self_gui;
  if (i <? length (models_listbox self))%nat then
    update (λ g, g <| listbox_curselection := Some i |>);;
    on_model_select
  else mret tt.

(** The first lines of [save_settings] and [auto_save_settings]: the
    visible credential is copied to the store of the current backend. *)
Definition store_current_credential (g : GUI) : GUI :=
  if String.eqb (backend_var g) "openai" then
    g <| openai_api_key := api_key_var g |>
  else if String.eqb (backend_var g) "openrouter" then
    g <| openrouter_api_key := api_key_var g |>
  else if String.eqb (backend_var g) "textgen" then
    g <| textgen_url := ollama_url_var g |>
  else g.

Definition write_settings (settings : Settings) : Method unit :=
  modify (λ a, a <| settings_file := Some settings |>).

Definition auto_save_settings : Method unit :=
  try_except_all
    (update store_current_credential;;
     self ← self_gui;
     write_settings
       {| st_swarmui_url := Some (swarmui_url_var self);
          st_backend := Some (backend_var self);
          st_ollama_url := Some (ollama_url_var self);
          st_api_key := Some (api_key_var self);
          st_default_model := Some (default_model_var self);
          st_session_id := Some (session_id_var self);
          st_openai_api_key := Some (openai_api_key self);
          st_openrouter_api_key := Some (openrouter_api_key self);
          st_textgen_url := Some (textgen_url self);
          st_temperature := None; st_max_tokens := None; st_top_p := None;
          st_top_k := None; st_repeat_penalty := None; st_seed := None;
          st_frequency_penalty := None; st_presence_penalty := None;
          st_min_p := None; st_top_a := None |})
    (λ e, mret tt).

(** The dict [save_settings] dumps, for the state after the credential
    store was updated. *)
Definition settings_of (self : GUI) : Settings :=
  {| st_swarmui_url := Some (swarmui_url_var self);
     st_backend := Some (backend_var self);
     st_ollama_url := Some (ollama_url_var self);
     st_api_key := Some (api_key_var self);
     st_default_model := Some (default_model_var self);
     st_session_id := Some (session_id_var self);
     st_openai_api_key := Some (openai_api_key self);
     st_openrouter_api_key := Some (openrouter_api_key self);
     st_textgen_url := Some (textgen_url self);
     st_temperature := Some (temperature_var self);
     st_max_tokens := Some (max_tokens_var self);
     st_top_p := Some (top_p_var self);
     st_top_k := Some (top_k_var self);
     st_repeat_penalty := Some (repeat_penalty_var self);
     st_seed := Some (seed_var self);
     st_frequency_penalty := Some (frequency_penalty_var self);
     st_presence_penalty := Some (presence_penalty_var self);
     st_min_p := Some (min_p_var self);
     st_top_a := Some (top_a_var self) |}.

Definition save_settings : Method unit :=
  update store_current_credential;;
  self ← self_gui;
  try_except_all
    (write_settings (settings_of self);;
     messagebox showinfo "Success" "Settings saved successfully!")
    (λ e, messagebox showerror "Error"
            ("Failed to save settings: " +:+ exn_str e)).

Definition on_backend_change : Method unit :=
  self ← self_gui;
  let backend := backend_var self in
  if String.eqb backend "openai" then
    update (λ g, g <| api_key_var := openai_api_key g |>)
  else if String.eqb backend "openrouter" then
    update (λ g, g <| api_key_var := openrouter_api_key g |>)
  else if String.eqb backend "textgen" then
    update (λ g, g <| ollama_url_var := textgen_url g |>)
  else
    update (λ g, g <| api_key_var := "" |>).

(** Choosing an entry of the read-only backend combobox. *)
Definition select_backend (backend : string) : Method unit :=
  update (λ g, g <| backend_var := backend |>);;
  on_backend_change.

Definition on_api_key_change : Method unit :=
  update (λ g,
    if String.eqb (backend_var g) "openai" then
      g <| openai_api_key := api_key_var g |>
    else if String.eqb (backend_var g) "openrouter" then
      g <| openrouter_api_key := api_key_var g |>
    else g);;
  auto_save_settings.

(** Typing in the API-key entry. *)
Definition type_api_key (key : string) : Method unit :=
  update (λ g, g <| api_key_var := key |>);;
  on_api_key_change.

Definition set_as_default_model : Method unit :=
  self ← self_gui;
  match selected_model self with
  | Some model =>
      if Py.nonempty model then
        update (λ g, g <| default_model_var := model |>);;
        update_default_model_display;;
        update_model_status_display;;
        auto_save_settings;;
        messagebox showinfo "Default Model Set"
          ("'" +:+ model +:+ "' has been set as your default model")
      else
        messagebox showwarning "No Model Selected" "Please select a model first"
  | None =>
      messagebox showwarning "No Model Selected" "Please select a model first"
  end.

(** The assignments of [load_settings] for a settings object. *)
Definition apply_settings (settings : Settings) (g : GUI) : GUI :=
  let g :=
    g <| swarmui_url_var := default default_swarmui_url (st_swarmui_url settings) |>
      <| backend_var := default "ollama" (st_backend settings) |>
      <| ollama_url_var := default default_ollama_url (st_ollama_url settings) |>
      <| api_key_var := default "" (st_api_key settings) |>
      <| default_model_var := default "" (st_default_model settings) |> in
  let saved_session_id := default "" (st_session_id settings) in
  let g :=
    if Py.nonempty saved_session_id
    then g <| session_id_var := saved_session_id |> else g in
  g <| openai_api_key := default "" (st_openai_api_key settings) |>
    <| openrouter_api_key := default "" (st_openrouter_api_key settings) |>
    <| textgen_url := default default_textgen_url (st_textgen_url settings) |>
    <| temperature_var := default 0.8%float (st_temperature settings) |>
    <| max_tokens_var := default 500%Z (st_max_tokens settings) |>
    <| top_p_var := default 0.7%float (st_top_p settings) |>
    <| top_k_var := default 40%Z (st_top_k settings) |>
    <| repeat_penalty_var := default 1.1%float (st_repeat_penalty settings) |>
    <| seed_var := default (-1)%Z (st_seed settings) |>
    <| frequency_penalty_var := default 0.0%float (st_frequency_penalty settings) |>
    <| presence_penalty_var := default 0.0%float (st_presence_penalty settings) |>
    <| min_p_var := default 0.0%float (st_min_p settings) |>
    <| top_a_var := default 0.0%float (st_top_a settings) |>.

Definition load_settings : Method unit :=
  try_except_all
    (a ← get_state;
     match settings_file a with
     | Some settings =>
         update (apply_settings settings);;
         on_backend_change;;
         update_default_model_display
     | None => mret tt
     end)
    (λ e, mret tt).

(** ** Generation requests *)

Definition api_key_argument (self : GUI) : option string :=
  if String.eqb (backend_var self) "openai"
     || String.eqb (backend_var self) "openrouter"
  then Some (api_key_var self) else None.

Definition display_image_analysis_result (result : dict) : Method unit :=
  update (λ g, g <| image_analysis_text :=
    if truthy (dict_get result "success" JNull) then
      let response := dict_get result "response" (JStr "") in
      if truthy response then tk_str response
      else "No analysis response received."
    else
      "Error: " +:+ py_str (dict_get result "message" (JStr "Unknown error occurred")) |>).

Definition _analyze_image_thread (model : string) : Method unit :=
  try_except_all
    (self ← self_gui;
     let system_prompt :=
       if wan_i2v_var self then Some wan_i2v_system_prompt else None in
     result ← call (analyze_image
                      (default "" (current_image_data self))
                      model
                      (backend_var self)
                      (prompt_var self)
                      (temperature_var self)
                      (max_tokens_var self)
                      (ollama_url_var self)
                      (api_key_argument self)
                      default_site_name
                      system_prompt);
     display_image_analysis_result result)
    (λ e, messagebox showerror "Error" ("Analysis failed: " +:+ exn_str e)).

(** [analyze_single_image]; the worker thread is run to its end at once. *)
Definition analyze_single_image : Method unit :=
  self ← self_gui;
  if negb (model_truthy (current_image_data self)) then
    messagebox showerror "Error" "Please select an image first"
  else if match available_models self with [] => true | _ => false end then
    messagebox showerror "Error" "Please connect to a backend first"
  else
    match get_selected_model self with
    | Some model =>
        if Py.nonempty model then _analyze_image_thread model
        else messagebox showerror "Error"
               "Please select a model from the Connection tab"
    | None =>
        messagebox showerror "Error"
          "Please select a model from the Connection tab"
    end.

Definition display_batch_result (result : dict) : Method unit :=
  if negb (truthy (dict_get result "success" JNull)) then
    messagebox showerror "Batch Processing Error"
      ("Error: " +:+ py_str (dict_get result "error" (JStr "Unknown error occurred")))
  else mret tt.

(** [s.endswith(suffix)] *)
Definition endswith (s suffix : string) : bool :=
  (String.length suffix <=? String.length s)%nat
  && String.eqb
       (String.substring (String.length s - String.length suffix)
          (String.length suffix) s)
       suffix.

Definition image_extensions : list string :=
  [".jpg"; ".jpeg"; ".png"; ".gif"; ".bmp"; ".tiff"; ".webp"].

Definition is_image_file (file : string) : bool :=
  existsb (endswith (Py.lower file)) image_extensions.

Definition listdir (folder_path : string) : Method (list string) := λ a,
  match folders a folder_path with
  | Some files => (Val files, a)
  | None => (Exn (Raise OSError "No such file or directory"), a)
  end.

Definition _process_batch_thread (model : string) : Method unit :=
  try_except_all
    (self ← self_gui;
     let folder_path := folder_path_var self in
     files ← listdir folder_path;
     let image_files := List.filter is_image_file files in
     match image_files with
     | [] => mret tt
     | _ =>
         result ← call (batch_caption_images
                          folder_path
                          model
                          (backend_var self)
                          (caption_style_var self)
                          (trigger_word_var self)
                          (temperature_var self)
                          (max_tokens_var self)
                          (ollama_url_var self)
                          (api_key_argument self)
                          default_site_name);
         display_batch_result result
     end)
    (λ e, messagebox showerror "Error"
            ("Batch processing failed: " +:+ exn_str e)).

Definition process_batch : Method unit :=
  self ← self_gui;
  if negb (Py.nonempty (folder_path_var self)) then
    messagebox showerror "Error" "Please select a folder first"
  else if match available_models self with [] => true | _ => false end then
    messagebox showerror "Error" "Please connect to a backend first"
  else
    match get_selected_model self with
    | Some model =>
        if Py.nonempty model then _process_batch_thread model
        else messagebox showerror "Error"
               "Please select a model from the Connection tab"
    | None =>
        messagebox showerror "Error"
          "Please select a model from the Connection tab"
    end.

Definition get_enhancement_system_prompt (enhancement_type : string) : string :=
  if String.eqb enhancement_type "qwen" then qwen_system_prompt
  else if String.eqb enhancement_type "wan" then wan_system_prompt
  else "Enhance the following text:".

Definition display_text_result (result : dict) : Method unit :=
  update (λ g, g <| text_results_text :=
    if truthy (dict_get result "success" JNull) then
      match result !! "response" with
      | Some response => tk_str response
      | None => "No enhanced text received."
      end
    else
      "Error: " +:+ py_str (dict_get result "message" (JStr "Unknown error occurred")) |>).

Definition _enhance_text_thread (model text : string) : Method unit :=
  try_except_all
    (self ← self_gui;
     let system_prompt :=
       get_enhancement_system_prompt (enhancement_type_var self) in
     result ← call (enhance_text_prompt
                      model
                      (backend_var self)
                      text
                      (temperature_var self)
                      (max_tokens_var self)
                      (ollama_url_var self)
                      (api_key_argument self)
                      default_site_name
                      (Some system_prompt));
     display_text_result result)
    (λ e, messagebox showerror "Error"
            ("Text enhancement failed: " +:+ exn_str e)).

Definition enhance_text : Method unit :=
  self ← self_gui;
  if match available_models self with [] => true | _ => false end then
    messagebox showerror "Error" "Please connect to a backend first"
  else
    match get_selected_model self with
    | Some model =>
        if Py.nonempty model then
          let text := Py.strip (text_input self) in
          if negb (Py.nonempty text) then
            messagebox showerror "Error" "Please enter text to enhance"
          else _enhance_text_thread model text
        else messagebox showerror "Error"
               "Please select a model from the Connection tab"
    | None =>
        messagebox showerror "Error"
          "Please select a model from the Connection tab"
    end.

(** ** The application at start-up *)

(** The object as [__init__] has it after [create_widgets]. *)
Definition initial_gui : GUI :=
  {| api := Some (new_api default_swarmui_url);
     current_image_data := None;
     available_models := [];
     openai_api_key := "";
     openrouter_api_key := "";
     textgen_url := default_textgen_url;
     selected_model := None;
     is_connected := false;
     all_models := [];
     filtered_models := [];
     temperature_var := 0.8%float;
     max_tokens_var := 500;
     top_p_var := 0.7%float;
     top_k_var := 40;
     repeat_penalty_var := 1.1%float;
     seed_var := -1;
     frequency_penalty_var := 0.0%float;
     presence_penalty_var := 0.0%float;
     min_p_var := 0.0%float;
     top_a_var := 0.0%float;
     default_model_var := "";
     wan_i2v_var := false;
     swarmui_url_var := default_swarmui_url;
     backend_var := "ollama";
     ollama_url_var := default_ollama_url;
     api_key_var := "";
     session_id_var := "";
     model_search_var := "";
     model_count_var := "No models loaded";
     model_info_var := "No model selected";
     default_model_display_var := "No default model set";
     models_listbox := [];
     listbox_curselection := None;
     prompt_var := "Describe this image in detail";
     single_image_model_var := "None selected";
     image_analysis_text := "";
     folder_path_var := "";
     caption_style_var := "Danbooru Tags";
     trigger_word_var := "1girl";
     batch_model_var := "None selected";
     enhancement_type_var := "qwen";
     text_model_var := "None selected";
     text_input := "";
     text_results_text := "";
     dialogs := [] |}.

(** The rest of [__init__]: [load_settings] and the session display. *)
Definition init : Method unit :=
  load_settings;;
  update_session_id_display.

(** Running a method: the application it leaves behind. *)
Definition run {A} (m : Method A) (a : App) : App := (m a).2.

(** ** The gateway calls, as one type

    The five client methods that go through [make_request], with the
    arguments of the source. *)

Inductive gateway_call :=
  | ConnectToOllamaAsync (ollama_url : string) (show_all : bool)
  | ConnectToTextGenAsync (textgen_url : string)
  | AnalyzeImageAsync (image_data model backend_type prompt : string)
      (temperature : float) (max_tokens : Z) (ollama_url : string)
      (api_key : option string) (site_name : string)
      (system_prompt : option string)
  | BatchCaptionImagesAsync (folder_path model backend_type caption_style
      trigger_word : string) (temperature : float) (max_tokens : Z)
      (ollama_url : string) (api_key : option string) (site_name : string)
  | EnhanceTextPromptAsync (model backend_type prompt : string)
      (temperature : float) (max_tokens : Z) (ollama_url : string)
      (api_key : option string) (site_name : string)
      (system_prompt : option string).

Definition perform (c : gateway_call) : API dict :=
  match c with
  | ConnectToOllamaAsync u b => connect_ollama u b
  | ConnectToTextGenAsync u => connect_textgen u
  | AnalyzeImageAsync i m b p t mt u k sn sp =>
      analyze_image i m b p t mt u k sn sp
  | BatchCaptionImagesAsync f m b cs tw t mt u k sn =>
      batch_caption_images f m b cs tw t mt u k sn
  | EnhanceTextPromptAsync m b p t mt u k sn sp =>
      enhance_text_prompt m b p t mt u k sn sp
  end.

Definition endpoint_of (c : gateway_call) : string :=
  match c with
  | ConnectToOllamaAsync _ _ => "ConnectToOllamaAsync"
  | ConnectToTextGenAsync _ => "ConnectToTextGenAsync"
  | AnalyzeImageAsync _ _ _ _ _ _ _ _ _ _ => "AnalyzeImageAsync"
  | BatchCaptionImagesAsync _ _ _ _ _ _ _ _ _ _ => "BatchCaptionImagesAsync"
  | EnhanceTextPromptAsync _ _ _ _ _ _ _ _ _ => "EnhanceTextPromptAsync"
  end.

Definition data_of (c : gateway_call) : dict :=
  match c with
  | ConnectToOllamaAsync u b => connect_ollama_data u b
  | ConnectToTextGenAsync u => connect_textgen_data u
  | AnalyzeImageAsync i m b p t mt u k sn sp =>
      analyze_image_data i m b p t mt u k sn sp
  | BatchCaptionImagesAsync f m b cs tw t mt u k sn =>
      batch_caption_images_data f m b cs tw t mt u k sn
  | EnhanceTextPromptAsync m b p t mt u k sn sp =>
      enhance_text_prompt_data m b p t mt u k sn sp
  end.

(** The request a gateway call puts on the wire. *)
Definition gateway_request (self : OllamaVisionAPI) (endpoint : string)
    (body : dict) : request :=
  Request POST (base_url self +:+ "/API/" +:+ endpoint) api_headers
    (Some body) 120.

Definition bootstrap_request (self : OllamaVisionAPI) : request :=
  Request POST (base_url self +:+ "/API/GetNewSession") api_headers (Some ∅) 60.

Definition listing_request (url api_key : string) : request :=
  Request GET url (bearer_headers api_key) None 60.

Definition log (r : request) (n : Net) : Net := n <| sent := sent n ++ [r] |>.

(** The answer the network gives to the next request. *)
Definition answer (n : Net) (r : request) : http_outcome :=
  server n (length (sent n)) r.

(** The system-prompt entry of a body: present exactly for an override
    that is a non-empty string. *)
Definition system_prompt_field (system_prompt : option string) : dict :=
  match system_prompt with
  | Some p => if Py.nonempty p then {[ "systemPrompt" := JStr p ]} else ∅
  | None => ∅
  end.

(** The model ids present in a provider's listing: the [id] of every
    entry that has one (a value that is not empty), in order. *)
Definition entry_id (m : dict) : option json :=
  let model_id := dict_get m "id" (JStr "") in
  if truthy model_id then Some model_id else None.

Definition model_ids (entries : list dict) : list json := omap entry_id entries.

(** The backend hands over the catalog [ms] when [load_models] asks:
    the gateway's Ollama listing, or a provider's listing with a key. *)
Inductive fetches (a : App) (ms : list string) : Prop :=
  | fetches_ollama (c : OllamaVisionAPI) (result : dict) :
      api (gui a) = Some c →
      backend_var (gui a) = "ollama" →
      answer (net a)
        (gateway_request c "ConnectToOllamaAsync"
           (data_with_session c (connect_ollama_data default_ollama_url true)))
        = Response result →
      truthy (dict_get result "success" JNull) = true →
      result !! "models" = Some (JArr (JStr <$> ms)) →
      fetches a ms
  | fetches_provider (c : OllamaVisionAPI) (url : string) (data : dict)
      (entries : list dict) :
      api (gui a) = Some c →
      (backend_var (gui a) = "openai" ∧ url = openai_models_url
       ∨ backend_var (gui a) = "openrouter" ∧ url = openrouter_models_url) →
      api_key_var (gui a) ≠ "" →
      answer (net a) (listing_request url (api_key_var (gui a))) = Response data →
      data !! "data" = Some (JArr (JObj <$> entries)) →
      model_ids entries = JStr <$> ms →
      fetches a ms.

(** [filter_models], as a function of the catalog and the search text. *)
Definition matching (search_text : string) (models : list string) : list string :=
  let search_text := Py.lower search_text in
  if negb (Py.nonempty search_text) then models
  else filter (λ model, Py.contains search_text (Py.lower model) = true) models.

(** The object after [store_models] put the sorted catalog [models] in. *)
Definition with_catalog (models : list string) (g : GUI) : GUI :=
  g <| all_models := models |> <| filtered_models := models |>
    <| listbox_curselection := None |> <| models_listbox := models |>
    <| available_models := models |>
    <| model_count_var := model_count_text (length models) (length models) |>.

(** The object after [load_models] emptied the list on display. *)
Definition cleared (g : GUI) : GUI :=
  g <| models_listbox := [] |> <| listbox_curselection := None |>
    <| available_models := [] |>.

(** The selection [connect_backend] makes once [load_models] is done:
    lines 949-965. *)
Definition selection_after_load (g : GUI) : option string :=
  match available_models g with
  | [] => selected_model g
  | first_model :: _ =>
      let current_default := Py.strip (default_model_var g) in
      Some (if Py.nonempty current_default
               && Py.mem current_default (available_models g)
            then current_default else first_model)
  end.

(** The API-key entry is on screen, or it is empty: what the combobox
    and [load_settings] keep true. *)
Definition key_entry_consistent (g : GUI) : Prop :=
  backend_var g = "openai" ∨ backend_var g = "openrouter"
  ∨ backend_var g = "textgen" ∨ api_key_var g = "".

(** ** Example applications *)

Definition app_with (g : GUI) (srv : nat → request → http_outcome) : App :=
  {| gui := g; net := {| server := srv; sent := [] |};
     settings_file := None; folders := λ _, None |}.

Definition session_reply : http_outcome :=
  Response {[ "session_id" := JStr "session-1" ]}.

Definition models_reply (ms : list string) : http_outcome :=
  Response {[ "success" := JBool true; "models" := JArr (JStr <$> ms) ]}.

(** A gateway that issues a session and lists three Ollama models. *)
Definition three_models_server : nat → request → http_outcome := λ i _,
  match i with
  | 0 => session_reply
  | _ => models_reply ["llava"; "qwen-vl"; "bakllava"]
  end.

Definition three_models_app : App := app_with initial_gui three_models_server.

(** A connected Ollama client whose search box still holds "ll". *)
Definition stale_filter_app : App :=
  app_with (initial_gui <| model_search_var := "ll" |>)
    (λ _ _, models_reply ["llava"; "qwen-vl"; "bakllava"]).

(** A gateway that cannot be reached. *)
Definition refusing_server : nat → request → http_outcome :=
  λ _ _, Failure "Connection refused".

Definition refusing_net : Net := {| server := refusing_server; sent := [] |}.


(** OpenAI through the gateway: a session, the provider's listing, and
    then whatever is asked is refused for want of a key. *)
Definition openai_server : nat → request → http_outcome := λ i _,
  match i with
  | 0 => session_reply
  | 1 => Response {[ "data" := JArr [JObj {[ "id" := JStr "gpt-4o" ]}] ]}
  | _ => Response {[ "success" := JBool false;
                     "message" := JStr "Invalid API key" ]}
  end.

Definition openai_app : App :=
  run (type_api_key "sk-test")
    (run (select_backend "openai") (app_with initial_gui openai_server)).

(** The user connects to OpenAI with a key, empties the key entry, and
    has an image loaded. *)
Definition keyless_openai_app : App :=
  (run (type_api_key "") (run connect_backend openai_app))
    <| gui -> current_image_data := Some "data:image/png;base64,AAAA" |>.



(** TextGen chosen in the combobox, before the first connect. *)
Definition textgen_app : App :=
  run (select_backend "textgen") (app_with initial_gui three_models_server).

(** A gateway that issues a session, lists one Ollama model at the
    connect and at the listing, and from then on answers [reply]. *)
Definition answering_server (reply : http_outcome) : nat → request → http_outcome :=
  λ i _,
  match i with
  | 0 => session_reply
  | 1 | 2 => models_reply ["llava"]
  | _ => reply
  end.

(** The user has connected, loaded an image, typed a text and chosen a
    folder that holds one image and one other file. *)
Definition ready_app (reply : http_outcome) : App :=
  (run connect_backend (app_with initial_gui (answering_server reply)))
    <| gui -> current_image_data := Some "data:image/png;base64,AAAA" |>
    <| gui -> text_input := "a cat" |>
    <| gui -> folder_path_var := "/pics" |>
    <| folders := λ p, if String.eqb p "/pics" then Some ["a.png"; "notes.txt"]
                       else if String.eqb p "/docs" then Some ["notes.txt"]
                       else None |>.

(** ** Properties of the client *)

Lemma make_request_unfold endpoint data self n :
  make_request endpoint data (self, n) =
    let r := gateway_request self endpoint (data_with_session self data) in
    (match answer n r with
     | Response d => Val d
     | Failure cause => Exn (Raise Exception ("API request failed: " +:+ cause))
     end, (self, log r n)).
Proof.
  unfold make_request, mbind, M_bind, self_api, try_except, requests_post, http,
    answer, log, gateway_request, raise.
  simpl. destruct (server n _ _); reflexivity.
Qed.

Lemma perform_unfold c self n :
  perform c (self, n) = make_request (endpoint_of c) (data_of c) (self, n).
Proof. destruct c; reflexivity. Qed.

Lemma get_swarmui_session_unfold self n :
  get_swarmui_session (self, n) =
    let r := bootstrap_request self in
    match answer n r with
    | Response data =>
        match data !! "session_id" with
        | Some sid =>
            (Val ({[ "success" := JBool true; "session_id" := sid;
                     "data" := JObj data ]} : dict),
             (self <| session_id := sid |>, log r n))
        | None =>
            (Val ({[ "success" := JBool false;
                     "message" := JStr "No session_id in response" ]} : dict),
             (self, log r n))
        end
    | Failure cause =>
        (Val ({[ "success" := JBool false;
                 "message" := JStr ("Failed to get SwarmUI session: " +:+ cause) ]}
              : dict),
         (self, log r n))
    end.
Proof.
  unfold get_swarmui_session, mbind, M_bind, self_api, try_except, requests_post,
    http, answer, log, bootstrap_request, set_session_id, modify, mret, M_ret.
  simpl. destruct (server n _ _) as [data|cause]; simpl; [|reflexivity].
  destruct (data !! "session_id"); reflexivity.
Qed.





Local Ltac by_cases_on_prompt sp :=
  unfold analyze_image_data, enhance_text_prompt_data, batch_caption_images_data,
    add_system_prompt, system_prompt_field;
  destruct sp as [?p|]; [destruct (Py.nonempty _)|];
  apply map_eq; intros k; vm_compute; reflexivity.

(** C3, in the form that holds of the code: the body of a generation request is the operation's
    own fields, the system prompt exactly when a non-empty override is
    given, and per backend: [ollamaUrl] for Ollama, [apiKey] for OpenAI,
    [apiKey] and [siteName] for OpenRouter, and nothing for TextGen, whose
    URL travels only in the connect call, as [textgenUrl]. *)
Theorem generation_body_fields (image_data model prompt ollama_url site_name
    folder_path caption_style trigger_word : string) (temperature : float)
    (max_tokens : Z) (api_key system_prompt : option string) :
  let sys := system_prompt_field system_prompt in
  let analyze backend_type :=
    analyze_image_data image_data model backend_type prompt temperature
      max_tokens ollama_url api_key site_name system_prompt in
  let enhance backend_type :=
    enhance_text_prompt_data model backend_type prompt temperature max_tokens
      ollama_url api_key site_name system_prompt in
  let batch backend_type :=
    batch_caption_images_data folder_path model backend_type caption_style
      trigger_word temperature max_tokens ollama_url api_key site_name in
  let analyze_fields backend_type : dict :=
    {[ "model" := JStr model; "backendType" := JStr backend_type;
       "imageData" := JStr image_data; "prompt" := JStr prompt;
       "temperature" := JFloat temperature; "maxTokens" := JInt max_tokens ]} in
  let enhance_fields backend_type : dict :=
    {[ "model" := JStr model; "backendType" := JStr backend_type;
       "prompt" := JStr prompt;
       "temperature" := JFloat temperature; "maxTokens" := JInt max_tokens ]} in
  let batch_fields backend_type : dict :=
    {[ "folderPath" := JStr folder_path; "model" := JStr model;
       "backendType" := JStr backend_type; "captionStyle" := JStr caption_style;
       "triggerWord" := JStr trigger_word;
       "temperature" := JFloat temperature; "maxTokens" := JInt max_tokens ]} in
  let url : dict := {[ "ollamaUrl" := JStr ollama_url ]} in
  let key : dict := {[ "apiKey" := opt_str api_key ]} in
  let site : dict := {[ "siteName" := JStr site_name ]} in
  (analyze "ollama" = sys ∪ analyze_fields "ollama" ∪ url
   ∧ analyze "textgen" = sys ∪ analyze_fields "textgen"
   ∧ analyze "openai" = sys ∪ analyze_fields "openai" ∪ key
   ∧ analyze "openrouter" = sys ∪ analyze_fields "openrouter" ∪ key ∪ site)
  ∧ (enhance "ollama" = sys ∪ enhance_fields "ollama" ∪ url
     ∧ enhance "textgen" = sys ∪ enhance_fields "textgen"
     ∧ enhance "openai" = sys ∪ enhance_fields "openai" ∪ key
     ∧ enhance "openrouter" = sys ∪ enhance_fields "openrouter" ∪ key ∪ site)
  ∧ (batch "ollama" = batch_fields "ollama" ∪ url
     ∧ batch "textgen" = batch_fields "textgen"
     ∧ batch "openai" = batch_fields "openai" ∪ key
     ∧ batch "openrouter" = batch_fields "openrouter" ∪ key ∪ site)
  ∧ connect_textgen_data ollama_url = {[ "textgenUrl" := JStr ollama_url ]}
  ∧ default_site_name = "SwarmUI"
  ∧ (∀ (a : App) (c : OllamaVisionAPI),
       api (gui a) = Some c →
       backend_var (gui a) = "textgen" →
       ollama_url_var (gui a) ≠ "" →
       sent (net (run connect_backend_result a))
       = sent (net a)
         ++ [gateway_request c "ConnectToTextGenAsync"
               (data_with_session c
                  (connect_textgen_data (ollama_url_var (gui a))))]).
Proof.
  intros sys analyze enhance batch analyze_fields enhance_fields batch_fields
    url key site.
  subst sys analyze enhance batch analyze_fields enhance_fields batch_fields
    url key site.
  split; [|split; [|split; [|split; [|split]]]].
  - repeat split; by_cases_on_prompt system_prompt.
  - repeat split; by_cases_on_prompt system_prompt.
  - repeat split; unfold batch_caption_images_data; vm_compute; reflexivity.
  - reflexivity.
  - reflexivity.
  - intros a c Hc Hb Hu.
    unfold run, connect_backend_result, connect_textgen, mbind, M_bind, self_gui,
      call.
    cbn beta iota. rewrite Hb.
    change (String.eqb "textgen" "ollama") with false.
    change (String.eqb "textgen" "textgen") with true.
    cbn beta iota. unfold Py.nonempty.
    destruct (String.eqb_spec (ollama_url_var (gui a)) ""); [done|].
    cbn [negb]. cbn beta iota. rewrite Hc, make_request_unfold. cbn zeta.
    destruct (answer (net a) _); reflexivity.
Qed.

Lemma collect_model_ids_objects (entries : list dict) (acc : list json) st :
  collect_model_ids (JObj <$> entries) acc st = (Val (acc ++ model_ids entries), st).
Proof.
  revert acc. induction entries as [|m entries IH]; intros acc; simpl.
  - by rewrite app_nil_r.
  - unfold mbind, M_bind, append_model_id, mret, M_ret. simpl.
    rewrite IH. unfold model_ids. simpl. unfold entry_id at 2.
    destruct (truthy (dict_get m "id" (JStr ""))); simpl.
    + by rewrite <- app_assoc.
    + reflexivity.
Qed.

Lemma get_provider_models_failure url provider api_key self n cause :
  answer n (listing_request url api_key) = Failure cause →
  get_provider_models url provider api_key (self, n) =
    (Val ({[ "success" := JBool false;
             "message" := JStr ("Failed to fetch " +:+ provider +:+ " models: "
                                +:+ cause) ]} : dict),
     (self, log (listing_request url api_key) n)).
Proof.
  unfold answer, listing_request. intros H.
  unfold get_provider_models, try_except, mbind, M_bind, requests_get, http.
  simpl. rewrite H. reflexivity.
Qed.

Lemma get_provider_models_objects url provider api_key self n data entries :
  answer n (listing_request url api_key) = Response data →
  data !! "data" = Some (JArr (JObj <$> entries)) →
  get_provider_models url provider api_key (self, n) =
    (Val ({[ "success" := JBool true; "models" := JArr (model_ids entries) ]} : dict),
     (self, log (listing_request url api_key) n)).
Proof.
  unfold answer, listing_request. intros H Hd.
  unfold get_provider_models, try_except, mbind, M_bind, requests_get, http.
  simpl. rewrite H. unfold dict_get. rewrite Hd. simpl.
  rewrite collect_model_ids_objects. reflexivity.
Qed.

(** C7: a successful answer of the OpenAI or OpenRouter listing, whose
    [data] is a list of model objects, is turned into the list of the ids
    present in it, each as it came and in order; what else an entry says
    plays no part.  The one request made is a GET to the provider's own
    URL, whatever the gateway's base URL, with the key as Bearer token. *)
Theorem provider_listing_returns_every_model_id (self : OllamaVisionAPI)
    (n : Net) (api_key : string) (data : dict) (entries : list dict)
    (url : string) :
  url = openai_models_url ∨ url = openrouter_models_url →
  answer n (listing_request url api_key) = Response data →
  data !! "data" = Some (JArr (JObj <$> entries)) →
  let call := if String.eqb url openai_models_url
              then get_openai_models api_key else get_openrouter_models api_key in
  call (self, n)
    = (Val ({[ "success" := JBool true; "models" := JArr (model_ids entries) ]} : dict),
       (self, log (listing_request url api_key) n))
  ∧ listing_request url api_key
    = Request GET url
        {[ "Authorization" := "Bearer " +:+ api_key;
           "Content-Type" := "application/json" ]} None 60
  ∧ (Forall (λ m, ∃ s, m !! "id" = Some (JStr s) ∧ s ≠ "") entries →
     model_ids entries = (λ m, dict_get m "id" (JStr "")) <$> entries).
Proof.
  intros Hurl Hans Hdata call. subst call.
  split; [|split].
  - destruct Hurl as [-> | ->]; simpl;
      unfold get_openai_models, get_openrouter_models;
      by eapply get_provider_models_objects.
  - reflexivity.
  - intros Hall. unfold model_ids. clear Hdata.
    induction Hall as [|m l (s & Hs & Hne) _ IH]; [reflexivity|].
    assert (entry_id m = Some (dict_get m "id" (JStr ""))) as Hm.
    { unfold entry_id, dict_get. rewrite Hs. simpl. unfold Py.nonempty.
      destruct (String.eqb_spec s ""); [done|reflexivity]. }
    cbn. rewrite Hm. cbn. f_equal. exact IH.
Qed.

(** What the client does with a transport failure. *)
Lemma client_transport_failure (self : OllamaVisionAPI) (n : Net)
    (cause api_key : string) :
  (∀ r, answer n r = Failure cause) →
  get_swarmui_session (self, n)
    = (Val ({[ "success" := JBool false;
               "message" := JStr ("Failed to get SwarmUI session: " +:+ cause) ]}
            : dict),
       (self, log (bootstrap_request self) n))
  ∧ get_openai_models api_key (self, n)
    = (Val ({[ "success" := JBool false;
               "message" := JStr ("Failed to fetch OpenAI models: " +:+ cause) ]}
            : dict),
       (self, log (listing_request openai_models_url api_key) n))
  ∧ get_openrouter_models api_key (self, n)
    = (Val ({[ "success" := JBool false;
               "message" := JStr ("Failed to fetch OpenRouter models: " +:+ cause) ]}
            : dict),
       (self, log (listing_request openrouter_models_url api_key) n))
  ∧ ∀ c : gateway_call,
      perform c (self, n)
      = (Exn (Raise Exception ("API request failed: " +:+ cause)),
         (self, log (gateway_request self (endpoint_of c)
                       (data_with_session self (data_of c))) n)).
Proof.
  intros Hfail. split; [|split; [|split]].
  - rewrite get_swarmui_session_unfold. simpl. by rewrite Hfail.
  - unfold get_openai_models. by rewrite (get_provider_models_failure _ _ _ _ _ cause).
  - unfold get_openrouter_models.
    by rewrite (get_provider_models_failure _ _ _ _ _ cause).
  - intros c. rewrite perform_unfold, make_request_unfold. simpl.
    by rewrite Hfail.
Qed.

(** ** Properties of the catalog *)

Lemma as_strings_JStr ms : as_strings (JStr <$> ms) = Some ms.
Proof.
  induction ms as [|m ms IH]; [done|].
  rewrite fmap_cons. cbn [as_strings]. by rewrite IH.
Qed.

Lemma store_models_strings (result : dict) ms a :
  result !! "models" = Some (JArr (JStr <$> ms)) →
  store_models result a = (Val tt, a <| gui ::= with_catalog (Py.sort ms) |>).
Proof.
  intros H. unfold store_models, getitem, mbind, M_bind. rewrite H.
  unfold mret, M_ret, sorted_models. cbn beta iota.
  rewrite as_strings_JStr. reflexivity.
Qed.

Local Arguments make_request : simpl never.
Local Arguments get_provider_models : simpl never.
Local Arguments store_models : simpl never.
Local Arguments Py.sort : simpl never.
Local Arguments Py.nonempty : simpl never.
Local Arguments model_count_text : simpl never.

Lemma nonempty_true s : s ≠ "" → Py.nonempty s = true.
Proof. unfold Py.nonempty. by destruct (String.eqb_spec s ""). Qed.


Lemma listing_success (v : json) :
  dict_get {[ "success" := JBool true; "models" := v ]} "success" JNull = JBool true.
Proof. reflexivity. Qed.

Lemma listing_models (v : json) :
  ({[ "success" := JBool true; "models" := v ]} : dict) !! "models" = Some v.
Proof. reflexivity. Qed.

Lemma load_models_fetches a ms :
  fetches a ms →
  ∃ a', load_models a = (Val tt, a')
        ∧ gui a' = with_catalog (Py.sort ms) (gui a)
        ∧ settings_file a' = settings_file a.
Proof.
  intros [c result Hc Hb Hans Hok Hms | c url data entries Hc Hb Hk Hans Hd Hids].
  - destruct a as [[] n sf fo]. simpl in *. subst.
    unfold load_models, try_except_all, mbind, M_bind, update, modify, self_gui, call. simpl.
    unfold connect_ollama. rewrite make_request_unfold. simpl. rewrite Hans. simpl.
    rewrite Hok, Hms. simpl.
    erewrite store_models_strings by eassumption.
    eexists. split; [reflexivity|]. split; reflexivity.
  - apply nonempty_true in Hk.
    destruct Hb as [[Hb ->] | [Hb ->]];
      destruct a as [[] n sf fo]; simpl in *; subst;
      unfold load_models, try_except_all, mbind, M_bind, update, modify, self_gui,
        call; simpl; rewrite Hk; simpl;
      unfold get_openai_models, get_openrouter_models;
      erewrite get_provider_models_objects by eassumption; simpl;
      rewrite listing_success; simpl;
      (erewrite store_models_strings by (rewrite listing_models, Hids; reflexivity));
      (eexists; split; [reflexivity|]; split; reflexivity).
Qed.

Lemma filter_models_unfold a :
  filter_models a =
    (Val tt,
     a <| gui ::= (λ g,
            let shown := matching (model_search_var g) (all_models g) in
            g <| filtered_models := shown |>
              <| listbox_curselection := None |>
              <| models_listbox := shown |>
              <| available_models := shown |>
              <| model_count_var :=
                   model_count_text (length (all_models g)) (length shown) |>) |>).
Proof. destruct a as [[] n sf fo]. reflexivity. Qed.

(** C9: the catalog llava, qwen-vl, bakllava is stored sorted; the
    filter text "ll" then leaves bakllava and llava, in that order, and
    the count label reads "Showing 2 of 3 models".  The same holds from
    start-up, through a connect to a gateway that lists these models. *)
Theorem filter_scenario (a : App) :
  let result : dict :=
    {[ "success" := JBool true;
       "models" := JArr [JStr "llava"; JStr "qwen-vl"; JStr "bakllava"] ]} in
  let loaded := run (store_models result) a in
  let shown := run (set_model_search "ll") loaded in
  let connected := run connect_backend three_models_app in
  let shown' := run (set_model_search "ll") connected in
  (all_models (gui loaded) = ["bakllava"; "llava"; "qwen-vl"]
   ∧ filtered_models (gui shown) = ["bakllava"; "llava"]
   ∧ models_listbox (gui shown) = ["bakllava"; "llava"]
   ∧ model_count_var (gui shown) = "Showing 2 of 3 models")
  ∧ (is_connected (gui connected) = true
     ∧ all_models (gui connected) = ["bakllava"; "llava"; "qwen-vl"]
     ∧ filtered_models (gui shown') = ["bakllava"; "llava"]
     ∧ model_count_var (gui shown') = "Showing 2 of 3 models").
Proof.
  destruct a as [[] n sf fo]. split.
  - vm_compute. repeat split.
  - vm_compute. repeat split.
Qed.

(** C10: when the backend hands over a catalog, [load_models] makes the
    filtered list, the displayed list and the listbox the whole sorted
    catalog and leaves the search text as it was; so with "ll" in the
    search box the list shown after a load is not the filtered one, until
    the filter runs again. *)
Theorem load_models_ignores_search_text :
  (∀ (a : App) (ms : list string),
     fetches a ms →
     let g' := gui (run load_models a) in
     all_models g' = Py.sort ms
     ∧ filtered_models g' = Py.sort ms
     ∧ available_models g' = Py.sort ms
     ∧ models_listbox g' = Py.sort ms
     ∧ model_search_var g' = model_search_var (gui a))
  ∧ (let a := stale_filter_app in
     let loaded := run load_models a in
     fetches a ["llava"; "qwen-vl"; "bakllava"]
     ∧ model_search_var (gui loaded) = "ll"
     ∧ filtered_models (gui loaded) = ["bakllava"; "llava"; "qwen-vl"]
     ∧ matching "ll" (all_models (gui loaded)) = ["bakllava"; "llava"]
     ∧ filtered_models (gui (run filter_models loaded)) = ["bakllava"; "llava"]).
Proof.
  split.
  - intros a ms Hf g'. subst g'.
    destruct (load_models_fetches a ms Hf) as (a' & Hrun & Hg & _).
    unfold run. rewrite Hrun. simpl. rewrite Hg.
    destruct a as [[] n sf fo]. repeat split.
  - cbv zeta. split; [|vm_compute; repeat split].
    eapply (fetches_ollama _ _ (new_api default_swarmui_url)); reflexivity.
Qed.


Lemma store_models_outcome (result : dict) a :
  (∃ ms, store_models result a = (Val tt, a <| gui ::= with_catalog (Py.sort ms) |>))
  ∨ (∃ e, store_models result a = (Exn e, a)).
Proof.
  unfold store_models, getitem, mbind, M_bind.
  destruct (result !! "models") as [v|]; [|right; eexists; reflexivity].
  unfold mret, M_ret, sorted_models. cbn beta iota.
  destruct v; try (right; eexists; reflexivity).
  destruct (as_strings l) as [ms|]; [|right; eexists; reflexivity].
  left. exists ms. reflexivity.
Qed.

(** Case analysis on the innermost scrutinee of the goal. *)
Local Ltac innermost x :=
  lazymatch x with
  | context [match ?y with _ => _ end] => innermost y
  | _ => destruct x eqn:?
  end.

Local Ltac split_goal_match :=
  match goal with
  | |- context [match ?x with _ => _ end] => innermost x
  end.

Lemma collect_model_ids_state l acc st :
  ∃ r, collect_model_ids l acc st = (r, st).
Proof.
  revert acc. induction l as [|m l IH]; intros acc; simpl; [eauto|].
  unfold mbind, M_bind, append_model_id. destruct m; simpl; eauto.
Qed.

Lemma get_provider_models_client url provider key c n :
  ∃ r n', get_provider_models url provider key (c, n) = (r, (c, n')).
Proof.
  unfold get_provider_models, try_except, mbind, M_bind, requests_get, http.
  simpl. destruct (server n _ _) as [data|cause]; simpl; [|eauto].
  unfold iter_entries.
  destruct (dict_get data "data" (JArr [])) eqn:Hv; simpl;
    try (match goal with
         | |- context [collect_model_ids ?l ?acc ?st] =>
             destruct (collect_model_ids_state l acc st) as [r Hr];
             rewrite Hr; destruct r; simpl
         end);
    repeat (split_goal_match; simpl); eauto.
Qed.

Lemma load_models_outcome a :
  ∃ a', load_models a = (Val tt, a')
    ∧ settings_file a' = settings_file a
    ∧ ((∃ ms, gui a' = with_catalog (Py.sort ms) (gui a))
       ∨ (∃ dl, gui a' = cleared (gui a) <| dialogs := dl |>)).
Proof.
  destruct a as [[] n sf fo].
  unfold load_models, try_except_all, mbind, M_bind, update, modify, self_gui, call,
    messagebox, connect_ollama, get_openai_models, get_openrouter_models.
  simpl.
  repeat (first
    [ rewrite make_request_unfold
    | match goal with
      | |- context [get_provider_models ?u ?p ?k (?c, ?n)] =>
          destruct (get_provider_models_client u p k c n) as (? & ? & ->)
      | |- context [store_models ?r ?a] =>
          destruct (store_models_outcome r a) as [[? ->] | [? ->]]
      end
    | split_goal_match ]; simpl).
  all: subst; eexists; (split; [reflexivity|]); (split; [reflexivity|]).
  all: cbn [gui];
    lazymatch goal with
    | |- (∃ ms, with_catalog (Py.sort ?x) _ = _) ∨ _ => left; exists x; reflexivity
    | |- _ ∨ (∃ dl, ?g = _) => right; exists (dialogs g); reflexivity
    end.
Qed.


Local Arguments load_models : simpl never.
Local Arguments get_swarmui_session : simpl never.
Local Arguments new_api : simpl never.
Local Arguments tk_str : simpl never.
Local Arguments py_str : simpl never.
Local Arguments Py.strip : simpl never.
Local Arguments Py.mem : simpl never.
Local Arguments with_catalog : simpl never.

(** A lookup in a dict literal is computed. *)
Local Ltac eval_literal_lookup :=
  match goal with
  | |- context [@lookup ?K ?A ?M ?L ?k (@insert ?K' ?A' ?M' ?I ?k1 ?v1 ?m)] =>
      let t := constr:(@lookup K A M L k (@insert K' A' M' I k1 v1 m)) in
      let v := eval vm_compute in t in
      change t with v
  end.

Lemma connect_tail a :
  ∃ a',
    (update_default_model_display;;
     select_default_model;;
     update (λ g, g <| is_connected := true |>)) a = (Val tt, a')
    ∧ is_connected (gui a') = true
    ∧ selected_model (gui a') = selection_after_load (gui a)
    ∧ available_models (gui a') = available_models (gui a)
    ∧ all_models (gui a') = all_models (gui a)
    ∧ filtered_models (gui a') = filtered_models (gui a)
    ∧ models_listbox (gui a') = models_listbox (gui a)
    ∧ default_model_var (gui a') = default_model_var (gui a)
    ∧ dialogs (gui a') = dialogs (gui a)
    ∧ settings_file a' = settings_file a.
Proof.
  destruct a as [[] n sf fo].
  unfold update_default_model_display, select_default_model,
    update_model_status_display, selection_after_load,
    mbind, M_bind, update, modify, self_gui.
  simpl.
  destruct available_models0 as [|first_model rest]; simpl.
  - eexists. split; [reflexivity|]. repeat split.
  - destruct (Py.nonempty (Py.strip default_model_var0)
              && Py.mem (Py.strip default_model_var0) (first_model :: rest));
      simpl; (eexists; split; [reflexivity|]; repeat split).
Qed.

(** How [connect_backend] ends: either before the catalog is asked for,
    with one error dialog and nothing changed but the client and the
    session display, or after [load_models] has run, connected. *)
Lemma connect_backend_outcome a :
  ∃ a', connect_backend a = (Val tt, a')
    ∧ settings_file a' = settings_file a
    ∧ ((∃ msg,
          dialogs (gui a') = dialogs (gui a) ++ [Dialog showerror "Error" msg]
          ∧ (gui a') <| api := api (gui a) |>
                     <| session_id_var := session_id_var (gui a) |>
                     <| dialogs := dialogs (gui a) |> = gui a)
       ∨ (∃ a1 a2,
            (gui a1) <| api := api (gui a) |>
                     <| session_id_var := session_id_var (gui a) |> = gui a
            ∧ load_models a1 = (Val tt, a2)
            ∧ is_connected (gui a') = true
            ∧ selected_model (gui a') = selection_after_load (gui a2)
            ∧ available_models (gui a') = available_models (gui a2)
            ∧ all_models (gui a') = all_models (gui a2)
            ∧ filtered_models (gui a') = filtered_models (gui a2)
            ∧ models_listbox (gui a') = models_listbox (gui a2)
            ∧ default_model_var (gui a') = default_model_var (gui a2)
            ∧ dialogs (gui a') = dialogs (gui a2))).
Proof.
  destruct a as [[] n sf fo].
  unfold connect_backend.
  pose proof connect_tail as Htail.
  set (tail := (update_default_model_display;; select_default_model;; update _))
    in *.
  clearbody tail.
  unfold connect_backend_result, update_session_id_display,
    try_except_all, mbind, M_bind, update, modify, self_gui, call, messagebox,
    connect_ollama, connect_textgen, get_session_id, self_api, getitem.
  simpl.
  rewrite get_swarmui_session_unfold. simpl.
  repeat (first
    [ rewrite make_request_unfold
    | match goal with
      | |- context [load_models ?a1] =>
          let a2 := fresh "a2" in
          let Hl := fresh "Hl" in
          let Ht := fresh "Ht" in
          destruct (load_models_outcome a1) as (a2 & Hl & ? & _);
          rewrite Hl; cbn beta iota;
          destruct (Htail a2) as (? & Ht & ? & ? & ? & ? & ? & ? & ? & ? & ?);
          rewrite Ht
      end
    | eval_literal_lookup
    | split_goal_match ]; simpl).
  all: subst; eexists; (split; [reflexivity|]); simpl.
  all: lazymatch goal with
       | |- context [ ?d ++ [Dialog showerror "Error" ?m] ] =>
           split; [reflexivity|]; left; exists m; split; reflexivity
       | Hl : load_models ?a1 = (Val tt, ?a2) |- _ =>
           split; [simpl in *; congruence|]; right; exists a1, a2;
           split; [reflexivity|]; split; [exact Hl|]; repeat split; assumption
       end.
Qed.

Lemma sort_sorted (l : list string) : StronglySorted Py.str_le (Py.sort l).
Proof. apply (StronglySorted_merge_sort Py.str_le); apply _. Qed.

Lemma sort_permutation (l : list string) : Py.sort l ≡ₚ l.
Proof. apply merge_sort_Permutation. Qed.








(** ** Properties of the settings document *)

Lemma on_backend_change_consistent a :
  key_entry_consistent (gui (run on_backend_change a)).
Proof.
  destruct a as [[] n sf fo]. unfold key_entry_consistent, run, on_backend_change,
    mbind, M_bind, self_gui, update, modify. simpl.
  destruct (String.eqb_spec backend_var0 "openai"); simpl; [by left|].
  destruct (String.eqb_spec backend_var0 "openrouter"); simpl; [by right; left|].
  destruct (String.eqb_spec backend_var0 "textgen"); simpl; [by right; right; left|].
  by right; right; right.
Qed.

Local Arguments store_current_credential : simpl never.
Local Arguments apply_settings : simpl never.
Local Arguments on_backend_change : simpl never.
Local Arguments update_default_model_display : simpl never.

Lemma store_current_credential_fields g :
  store_current_credential g =
    g <| openai_api_key :=
           if String.eqb (backend_var g) "openai" then api_key_var g
           else openai_api_key g |>
      <| openrouter_api_key :=
           if String.eqb (backend_var g) "openai" then openrouter_api_key g
           else if String.eqb (backend_var g) "openrouter" then api_key_var g
           else openrouter_api_key g |>
      <| textgen_url :=
           if String.eqb (backend_var g) "openai" then textgen_url g
           else if String.eqb (backend_var g) "openrouter" then textgen_url g
           else if String.eqb (backend_var g) "textgen" then ollama_url_var g
           else textgen_url g |>.
Proof.
  destruct g. unfold store_current_credential. cbn [backend_var].
  destruct (String.eqb backend_var0 "openai"); [reflexivity|].
  destruct (String.eqb backend_var0 "openrouter"); [reflexivity|].
  destruct (String.eqb backend_var0 "textgen"); reflexivity.
Qed.

Lemma on_backend_change_fields a :
  on_backend_change a =
    (Val tt,
     a <| gui ::= (λ g,
            g <| api_key_var :=
                   if String.eqb (backend_var g) "openai" then openai_api_key g
                   else if String.eqb (backend_var g) "openrouter"
                        then openrouter_api_key g
                   else if String.eqb (backend_var g) "textgen" then api_key_var g
                   else "" |>
              <| ollama_url_var :=
                   if String.eqb (backend_var g) "openai" then ollama_url_var g
                   else if String.eqb (backend_var g) "openrouter"
                        then ollama_url_var g
                   else if String.eqb (backend_var g) "textgen" then textgen_url g
                   else ollama_url_var g |>) |>).
Proof.
  destruct a as [[] n sf fo].
  unfold on_backend_change, mbind, M_bind, self_gui, update, modify.
  simpl.
  destruct (String.eqb backend_var0 "openai"); [reflexivity|].
  destruct (String.eqb backend_var0 "openrouter"); [reflexivity|].
  destruct (String.eqb backend_var0 "textgen"); reflexivity.
Qed.




(** ** Properties of the request gates *)

Local Arguments get_selected_model : simpl never.
Local Arguments analyze_image_data : simpl never.
Local Arguments enhance_text_prompt_data : simpl never.
Local Arguments batch_caption_images_data : simpl never.
Local Arguments data_with_session : simpl never.
Local Arguments api_key_argument : simpl never.
Local Arguments get_enhancement_system_prompt : simpl never.
Local Arguments is_image_file : simpl never.
Local Arguments gateway_request : simpl never.
Local Arguments bootstrap_request : simpl never.

Lemma keyless_listing_sends_nothing a :
  String.eqb (backend_var (gui a)) "openai"
    || String.eqb (backend_var (gui a)) "openrouter" = true →
  api_key_var (gui a) = "" →
  sent (net (run load_models a)) = sent (net a)
  ∧ ∃ msg, dialogs (gui (run load_models a))
           = dialogs (gui a) ++ [Dialog showerror "Error" msg].
Proof.
  destruct a as [[] n sf fo]. simpl. intros Hb ->.
  apply orb_true_iff in Hb as [Hb|Hb]; apply String.eqb_eq in Hb; subst;
    (split; [reflexivity | eexists; reflexivity]).
Qed.

Lemma keyless_connect_sends_bootstrap_only a :
  String.eqb (backend_var (gui a)) "openai"
    || String.eqb (backend_var (gui a)) "openrouter" = true →
  api_key_var (gui a) = "" →
  sent (net (run connect_backend a))
    = sent (net a) ++ [bootstrap_request (new_api (swarmui_url_var (gui a)))]
  ∧ is_connected (gui (run connect_backend a)) = is_connected (gui a).
Proof.
  destruct a as [[] n sf fo]. simpl. intros Hb ->.
  unfold run, connect_backend, connect_backend_result, update_session_id_display,
    try_except_all, mbind, M_bind, update, modify, self_gui, call, messagebox,
    get_session_id, self_api, getitem.
  simpl. rewrite get_swarmui_session_unfold. simpl.
  apply orb_true_iff in Hb as [Hb|Hb]; apply String.eqb_eq in Hb; subst;
    (destruct (answer n _) as [data|cause]; simpl;
     [destruct (data !! "session_id"); simpl|]; split; reflexivity).
Qed.

Lemma analyze_sends_request a c model image_data :
  api (gui a) = Some c →
  available_models (gui a) ≠ [] →
  get_selected_model (gui a) = Some model → model ≠ "" →
  current_image_data (gui a) = Some image_data → image_data ≠ "" →
  let g := gui a in
  sent (net (run analyze_single_image a))
    = sent (net a)
      ++ [gateway_request c "AnalyzeImageAsync"
            (data_with_session c
               (analyze_image_data image_data model (backend_var g)
                  (prompt_var g) (temperature_var g) (max_tokens_var g)
                  (ollama_url_var g) (api_key_argument g) default_site_name
                  (if wan_i2v_var g then Some wan_i2v_system_prompt else None)))].
Proof.
  intros Hc Hav Hsel Hm Himg Hi. apply nonempty_true in Hm, Hi.
  unfold run, analyze_single_image, _analyze_image_thread, analyze_image,
    display_image_analysis_result, try_except_all, mbind, M_bind, update, modify,
    self_gui, call, messagebox.
  cbn beta iota. rewrite Himg, Hsel. cbn [model_truthy negb]. cbn beta iota.
  rewrite Hi, Hm. cbn [negb].
  destruct (available_models (gui a)) as [|? ?] eqn:Hav'; [done|].
  cbn beta iota. rewrite Hc, make_request_unfold. cbn zeta beta iota.
  rewrite Himg. cbn [default from_option id].
  destruct (answer (net a) _); reflexivity.
Qed.

Lemma enhance_sends_request a c model :
  api (gui a) = Some c →
  available_models (gui a) ≠ [] →
  get_selected_model (gui a) = Some model → model ≠ "" →
  Py.strip (text_input (gui a)) ≠ "" →
  let g := gui a in
  sent (net (run enhance_text a))
    = sent (net a)
      ++ [gateway_request c "EnhanceTextPromptAsync"
            (data_with_session c
               (enhance_text_prompt_data model (backend_var g)
                  (Py.strip (text_input g)) (temperature_var g)
                  (max_tokens_var g) (ollama_url_var g) (api_key_argument g)
                  default_site_name
                  (Some (get_enhancement_system_prompt (enhancement_type_var g)))))].
Proof.
  intros Hc Hav Hsel Hm Ht. apply nonempty_true in Hm, Ht.
  unfold run, enhance_text, _enhance_text_thread, enhance_text_prompt,
    display_text_result, try_except_all, mbind, M_bind, update, modify,
    self_gui, call, messagebox.
  cbn beta iota. rewrite Hsel. cbn beta iota. rewrite Hm, Ht. cbn [negb].
  destruct (available_models (gui a)) as [|? ?] eqn:Hav'; [done|].
  cbn beta iota.
  rewrite Hc, make_request_unfold. cbn zeta beta iota.
  destruct (answer (net a) _); reflexivity.
Qed.

Lemma batch_sends_request a c model files :
  api (gui a) = Some c →
  available_models (gui a) ≠ [] →
  get_selected_model (gui a) = Some model → model ≠ "" →
  folder_path_var (gui a) ≠ "" →
  folders a (folder_path_var (gui a)) = Some files →
  List.filter is_image_file files ≠ [] →
  let g := gui a in
  sent (net (run process_batch a))
    = sent (net a)
      ++ [gateway_request c "BatchCaptionImagesAsync"
            (data_with_session c
               (batch_caption_images_data (folder_path_var g) model
                  (backend_var g) (caption_style_var g) (trigger_word_var g)
                  (temperature_var g) (max_tokens_var g) (ollama_url_var g)
                  (api_key_argument g) default_site_name))].
Proof.
  intros Hc Hav Hsel Hm Hf Hdir Himgs. apply nonempty_true in Hm, Hf.
  unfold run, process_batch, _process_batch_thread, batch_caption_images,
    display_batch_result, listdir, try_except_all, mbind, M_bind, update, modify,
    self_gui, call, messagebox.
  cbn beta iota. rewrite Hsel. cbn beta iota. rewrite Hm, Hf. cbn [negb].
  destruct (available_models (gui a)) as [|? ?] eqn:Hav'; [done|].
  cbn beta iota. rewrite Hdir. cbn beta iota.
  destruct (List.filter is_image_file files) as [|? ?] eqn:Hfl; [done|].
  rewrite Hc, make_request_unfold. cbn zeta beta iota.
  destruct (answer (net a) _) as [result|cause]; [|reflexivity].
  cbn beta iota. destruct (negb _); reflexivity.
Qed.

(** C4, in the form that holds of the code: the API key of OpenAI and OpenRouter is checked
    where models are listed and at connect: with an empty key
    [load_models] sends nothing and shows an error, and [connect_backend]
    sends the session bootstrap only and stays as it was.  The three
    generation operations do not look at the key: once a list is on
    display and a model is selected (and the image, the text or the
    folder's images are there), each sends its request, with whatever key
    the entry holds as [apiKey]. *)
Theorem api_key_checked_at_listing_and_connect (a : App) :
  let g := gui a in
  let external :=
    String.eqb (backend_var g) "openai"
    || String.eqb (backend_var g) "openrouter" in
  (external = true → api_key_var g = "" →
     (sent (net (run load_models a)) = sent (net a)
      ∧ ∃ msg, dialogs (gui (run load_models a))
               = dialogs g ++ [Dialog showerror "Error" msg])
     ∧ sent (net (run connect_backend a))
       = sent (net a) ++ [bootstrap_request (new_api (swarmui_url_var g))]
     ∧ is_connected (gui (run connect_backend a)) = is_connected g)
  ∧ (∀ (c : OllamaVisionAPI) (model : string),
       api g = Some c →
       available_models g ≠ [] →
       get_selected_model g = Some model → model ≠ "" →
       (∀ image_data,
          current_image_data g = Some image_data → image_data ≠ "" →
          sent (net (run analyze_single_image a))
          = sent (net a)
            ++ [gateway_request c "AnalyzeImageAsync"
                  (data_with_session c
                     (analyze_image_data image_data model (backend_var g)
                        (prompt_var g) (temperature_var g) (max_tokens_var g)
                        (ollama_url_var g) (api_key_argument g)
                        default_site_name
                        (if wan_i2v_var g then Some wan_i2v_system_prompt
                         else None)))])
       ∧ (Py.strip (text_input g) ≠ "" →
          sent (net (run enhance_text a))
          = sent (net a)
            ++ [gateway_request c "EnhanceTextPromptAsync"
                  (data_with_session c
                     (enhance_text_prompt_data model (backend_var g)
                        (Py.strip (text_input g)) (temperature_var g)
                        (max_tokens_var g) (ollama_url_var g)
                        (api_key_argument g) default_site_name
                        (Some (get_enhancement_system_prompt
                                 (enhancement_type_var g)))))])
       ∧ (∀ files,
            folder_path_var g ≠ "" →
            folders a (folder_path_var g) = Some files →
            List.filter is_image_file files ≠ [] →
            sent (net (run process_batch a))
            = sent (net a)
              ++ [gateway_request c "BatchCaptionImagesAsync"
                    (data_with_session c
                       (batch_caption_images_data (folder_path_var g) model
                          (backend_var g) (caption_style_var g)
                          (trigger_word_var g) (temperature_var g)
                          (max_tokens_var g) (ollama_url_var g)
                          (api_key_argument g) default_site_name))]))
  ∧ (external = true → api_key_argument g = Some (api_key_var g)).
Proof.
  intros g external. subst g external. split; [|split].
  - intros Hb Hk. split.
    + by apply keyless_listing_sends_nothing.
    + by apply keyless_connect_sends_bootstrap_only.
  - intros c model Hc Hav Hsel Hm. split; [|split].
    + intros image_data Himg Hi. by apply analyze_sends_request.
    + intros Ht. by apply enhance_sends_request.
    + intros files Hf Hdir Himgs. by eapply batch_sends_request.
  - intros Hb. unfold api_key_argument. by rewrite Hb.
Qed.

(** The GUI methods that call the client catch what it raises. *)
Lemma try_except_all_unit (body : Method unit) (handler : exn → Method unit) a :
  (∀ e s, (handler e s).1 = Val tt) →
  (try_except_all body handler a).1 = Val tt.
Proof.
  intros Hh. unfold try_except_all.
  destruct (body a) as [[[]|e] s']; [reflexivity|apply Hh].
Qed.

Lemma callers_never_raise a model text :
  (connect_backend a).1 = Val tt
  ∧ (load_models a).1 = Val tt
  ∧ (_analyze_image_thread model a).1 = Val tt
  ∧ (_process_batch_thread model a).1 = Val tt
  ∧ (_enhance_text_thread model text a).1 = Val tt.
Proof.
  repeat split.
  - by apply try_except_all_unit.
  - destruct (load_models_outcome a) as (a' & -> & _). reflexivity.
  - by apply try_except_all_unit.
  - by apply try_except_all_unit.
  - by apply try_except_all_unit.
Qed.

(** C1, in the form that holds of the code: when the transport fails, the session bootstrap and
    the two provider listings answer with [success] false and a message
    holding the cause, while every call that goes through [make_request]
    raises [Exception("API request failed: <cause>")] to its caller; the
    GUI methods that make these calls catch what is raised and return. *)
Theorem transport_failure_outcomes (self : OllamaVisionAPI) (n : Net)
    (cause api_key : string) :
  (∀ r, answer n r = Failure cause) →
  (get_swarmui_session (self, n)
     = (Val ({[ "success" := JBool false;
                "message" := JStr ("Failed to get SwarmUI session: " +:+ cause) ]}
             : dict),
        (self, log (bootstrap_request self) n))
   ∧ get_openai_models api_key (self, n)
     = (Val ({[ "success" := JBool false;
                "message" := JStr ("Failed to fetch OpenAI models: " +:+ cause) ]}
             : dict),
        (self, log (listing_request openai_models_url api_key) n))
   ∧ get_openrouter_models api_key (self, n)
     = (Val ({[ "success" := JBool false;
                "message" := JStr ("Failed to fetch OpenRouter models: " +:+ cause) ]}
             : dict),
        (self, log (listing_request openrouter_models_url api_key) n))
   ∧ ∀ c : gateway_call,
       perform c (self, n)
       = (Exn (Raise Exception ("API request failed: " +:+ cause)),
          (self, log (gateway_request self (endpoint_of c)
                        (data_with_session self (data_of c))) n)))
  ∧ (∀ (a : App) (model text : string),
       (connect_backend a).1 = Val tt
       ∧ (load_models a).1 = Val tt
       ∧ (_analyze_image_thread model a).1 = Val tt
       ∧ (_process_batch_thread model a).1 = Val tt
       ∧ (_enhance_text_thread model text a).1 = Val tt).
Proof.
  intros Hfail. split.
  - by apply client_transport_failure.
  - intros a model text. apply callers_never_raise.
Qed.

(** ** Further properties of the client *)

(** X1: [reset_session] of the client returns the token the gateway
    issued and stores it; when the gateway cannot be reached or its answer
    has no [session_id], it raises and the client is as before, its
    earlier token included. *)
Theorem reset_session_keeps_token_on_failure (self : OllamaVisionAPI) (n : Net) :
  let r := bootstrap_request self in
  (∀ cause,
     answer n r = Failure cause →
     reset_session_api py_str (self, n)
     = (Exn (Raise Exception
               ("Failed to get new session: Failed to get SwarmUI session: "
                +:+ cause)),
        (self, log r n)))
  ∧ (∀ data,
       answer n r = Response data → data !! "session_id" = None →
       reset_session_api py_str (self, n)
       = (Exn (Raise Exception
                 "Failed to get new session: No session_id in response"),
          (self, log r n)))
  ∧ (∀ data sid,
       answer n r = Response data → data !! "session_id" = Some sid →
       reset_session_api py_str (self, n)
       = (Val sid, (self <| session_id := sid |>, log r n))).
Proof.
  cbv zeta. unfold reset_session_api, mbind, M_bind.
  rewrite get_swarmui_session_unfold. cbv zeta.
  split; [|split].
  - intros cause ->. reflexivity.
  - intros data -> ->. reflexivity.
  - intros data sid -> ->. reflexivity.
Qed.

Lemma perform_sent (c : gateway_call) self n :
  sent (perform c (self, n)).2.2
  = sent n ++ [gateway_request self (endpoint_of c)
                 (data_with_session self (data_of c))].
Proof. rewrite perform_unfold, make_request_unfold. reflexivity. Qed.

(** X2: a request made after a successful bootstrap carries the token
    that bootstrap was given. *)
Theorem request_after_bootstrap_carries_issued_token (self : OllamaVisionAPI)
    (n : Net) (data : dict) (token : json) (c : gateway_call) :
  answer n (bootstrap_request self) = Response data →
  data !! "session_id" = Some token →
  truthy token = true →
  let body : dict := <["session_id" := token]> (data_of c) in
  sent (perform c (get_swarmui_session (self, n)).2).2.2
  = sent n ++ [bootstrap_request self;
               gateway_request self (endpoint_of c) body].
Proof.
  intros Hans Hdata Htoken body. subst body.
  rewrite get_swarmui_session_unfold. cbv zeta. rewrite Hans, Hdata.
  cbn [snd]. rewrite perform_sent.
  destruct self as [url sid]. unfold data_with_session.
  change (truthy (session_id _)) with (truthy token). rewrite Htoken.
  unfold log, constant, gateway_request. cbn. by rewrite <- app_assoc.
Qed.

(** X3: the base URL of a client never ends in a slash, and a slash at
    the end of the SwarmUI URL makes no difference to the client. *)
Theorem trailing_slash_is_dropped (url : string) :
  new_api (url +:+ "/") = new_api url
  ∧ ∀ s, base_url (new_api url) ≠ s +:+ "/".
Proof.
  unfold new_api, Py.rstrip_slash. cbn [base_url].
  assert (∀ s, Py.rstrip (Ascii.eqb "/"%char) (s +:+ "/")
               = Py.rstrip (Ascii.eqb "/"%char) s) as Hdrop.
  { induction s as [|a s IH]; [reflexivity|].
    simpl. by rewrite IH. }
  split; [by rewrite Hdrop|].
  intros s Hs.
  assert (∀ t u, Py.rstrip (Ascii.eqb "/"%char) t ≠ u +:+ "/") as Hno; [|by eapply Hno].
  clear. induction t as [|a t IH]; intros u.
  - by destruct u.
  - cbn [Py.rstrip].
    destruct (Py.rstrip (Ascii.eqb "/"%char) t) as [|b r] eqn:Hr.
    + destruct (Ascii.eqb_spec "/"%char a) as [<-|Hne]; [by destruct u|].
      destruct u as [|x u]; cbn.
      * intros [= Ha]. by apply Hne.
      * intros [= _ Hu]. by destruct u.
    + destruct u as [|x u]; cbn.
      * by intros [= _ Hu].
      * intros [= _ Hu]. by apply (IH u).
Qed.

(** X4: a provider listing without a [data] field is an empty catalog,
    not an error; a [data] that is null is a TypeError that the listing
    call does not catch. *)
Theorem provider_listing_without_data (url provider api_key : string)
    (self : OllamaVisionAPI) (n : Net) (data : dict) :
  answer n (listing_request url api_key) = Response data →
  (data !! "data" = None →
   get_provider_models url provider api_key (self, n)
   = (Val ({[ "success" := JBool true; "models" := JArr [] ]} : dict),
      (self, log (listing_request url api_key) n)))
  ∧ (data !! "data" = Some JNull →
     ∃ msg,
       get_provider_models url provider api_key (self, n)
       = (Exn (Raise TypeError msg),
          (self, log (listing_request url api_key) n))).
Proof.
  unfold answer, listing_request. intros Hans.
  unfold get_provider_models, try_except, mbind, M_bind, requests_get, http,
    dict_get.
  split; intros Hd; [|eexists]; cbn; rewrite Hans, Hd; reflexivity.
Qed.

(** ** Further properties of the catalog and its filter *)




Lemma set_model_search_unfold text a :
  set_model_search text a =
    (Val tt,
     a <| gui ::= (λ g,
            let shown := matching text (all_models g) in
            g <| model_search_var := text |>
              <| filtered_models := shown |>
              <| listbox_curselection := None |>
              <| models_listbox := shown |>
              <| available_models := shown |>
              <| model_count_var :=
                   model_count_text (length (all_models g)) (length shown) |>) |>).
Proof. destruct a as [[] n sf fo]. reflexivity. Qed.

(** X5: an empty search text puts the whole catalog back on display, and
    the clear button does the same. *)
Theorem empty_search_shows_whole_catalog (a : App) :
  let g' := gui (run (set_model_search "") a) in
  filtered_models g' = all_models (gui a)
  ∧ available_models g' = all_models (gui a)
  ∧ models_listbox g' = all_models (gui a)
  ∧ run clear_model_search a = run (set_model_search "") a.
Proof. destruct a as [[] n sf fo]. repeat split. Qed.


(** X7: a search starts from the whole catalog, not from what the
    previous search left: only the last text counts. *)
Theorem last_search_wins (a : App) (text1 text2 : string) :
  run (set_model_search text2) (run (set_model_search text1) a)
  = run (set_model_search text2) a.
Proof.
  unfold run. rewrite !set_model_search_unfold.
  destruct a as [[] n sf fo]. reflexivity.
Qed.

(** X8: a search does not touch the selected model: it stays selected,
    and stays the model the operations use, also when the search has
    removed it from the list on display. *)
Theorem search_keeps_selected_model (a : App) (text m : string) :
  selected_model (gui a) = Some m → m ≠ "" →
  let g' := gui (run (set_model_search text) a) in
  selected_model g' = Some m
  ∧ get_selected_model g' = Some m
  ∧ default_model_var g' = default_model_var (gui a)
  ∧ is_connected g' = is_connected (gui a).
Proof.
  intros Hs Hm. apply nonempty_true in Hm.
  cbv zeta. unfold run. rewrite set_model_search_unfold.
  destruct a as [[] n sf fo]. cbn in *. subst.
  unfold get_selected_model. cbn. rewrite Hm. repeat split.
Qed.


(** X10: the catalog stored by [load_models] is the fetched list put in
    ascending order: the same names as often as they came, none dropped,
    and the count label counts them. *)
Theorem loaded_catalog_is_sorted_permutation (a : App) (ms : list string) :
  fetches a ms →
  let g' := gui (run load_models a) in
  all_models g' ≡ₚ ms
  ∧ StronglySorted Py.str_le (all_models g')
  ∧ length (all_models g') = length ms
  ∧ model_count_var g'
    = (if (length ms =? 0)%nat then "No models loaded"
       else "Showing " +:+ pretty (length ms) +:+ " models").
Proof.
  intros Hf. cbv zeta.
  destruct (load_models_fetches a ms Hf) as (a' & Hrun & Hg & _).
  unfold run. rewrite Hrun. cbn [snd]. rewrite Hg.
  assert (all_models (with_catalog (Py.sort ms) (gui a)) = Py.sort ms
          ∧ model_count_var (with_catalog (Py.sort ms) (gui a))
            = model_count_text (length (Py.sort ms)) (length (Py.sort ms)))
    as [-> ->] by (destruct (gui a); split; reflexivity).
  pose proof (sort_permutation ms) as Hp.
  split; [exact Hp|]. split; [apply sort_sorted|].
  rewrite (Permutation_length Hp). split; [reflexivity|].
  unfold model_count_text. destruct (length ms =? 0)%nat; [reflexivity|].
  by rewrite Nat.eqb_refl.
Qed.

(** ** Further properties of connecting and of the request gates *)

(** X11: a disconnect drops the client, the catalog, the list on display
    and the selection, and shows that no model is loaded; it keeps the
    credentials, the URLs, the default model, the search text and the
    session id on display, and it neither sends a request, nor writes the
    settings file, nor opens a dialog. *)
Theorem disconnect_clears_connection_keeps_settings (a : App) :
  let a' := run disconnect_backend a in
  let g := gui a in
  let g' := gui a' in
  (is_connected g' = false ∧ api g' = None ∧ selected_model g' = None
   ∧ all_models g' = [] ∧ filtered_models g' = []
   ∧ available_models g' = [] ∧ models_listbox g' = []
   ∧ get_selected_model g' = None)
  ∧ (model_count_var g' = "No models loaded"
     ∧ model_info_var g' = "None selected"
     ∧ single_image_model_var g' = "None selected"
     ∧ batch_model_var g' = "None selected"
     ∧ text_model_var g' = "None selected")
  ∧ (swarmui_url_var g' = swarmui_url_var g
     ∧ backend_var g' = backend_var g
     ∧ ollama_url_var g' = ollama_url_var g
     ∧ api_key_var g' = api_key_var g
     ∧ openai_api_key g' = openai_api_key g
     ∧ openrouter_api_key g' = openrouter_api_key g
     ∧ textgen_url g' = textgen_url g
     ∧ default_model_var g' = default_model_var g
     ∧ session_id_var g' = session_id_var g
     ∧ model_search_var g' = model_search_var g)
  ∧ (net a' = net a ∧ settings_file a' = settings_file a
     ∧ dialogs g' = dialogs g).
Proof.
  destruct a as [[] n sf fo]. destruct listbox_curselection0; repeat split.
Qed.

Local Ltac refused_with :=
  eexists; split;
    [reflexivity
    |repeat first [apply list_elem_of_here | apply list_elem_of_further]].

Lemma analyze_refused a :
  available_models (gui a) = []
  ∨ model_truthy (get_selected_model (gui a)) = false →
  ∃ msg, run analyze_single_image a = run (messagebox showerror "Error" msg) a
    ∧ msg ∈ ["Please select an image first";
             "Please connect to a backend first";
             "Please select a model from the Connection tab"].
Proof.
  intros H. unfold run at 1, analyze_single_image, mbind, M_bind, self_gui.
  cbn beta iota.
  destruct (negb (model_truthy (current_image_data (gui a)))); [refused_with|].
  destruct (available_models (gui a)) eqn:Hav; [refused_with|].
  destruct H as [H|H]; [done|].
  destruct (get_selected_model (gui a)) as [m|]; cbn in H; [rewrite H|];
    refused_with.
Qed.

Lemma batch_refused a :
  available_models (gui a) = []
  ∨ model_truthy (get_selected_model (gui a)) = false →
  ∃ msg, run process_batch a = run (messagebox showerror "Error" msg) a
    ∧ msg ∈ ["Please select a folder first";
             "Please connect to a backend first";
             "Please select a model from the Connection tab"].
Proof.
  intros H. unfold run at 1, process_batch, mbind, M_bind, self_gui.
  cbn beta iota.
  destruct (negb (Py.nonempty (folder_path_var (gui a)))); [refused_with|].
  destruct (available_models (gui a)) eqn:Hav; [refused_with|].
  destruct H as [H|H]; [done|].
  destruct (get_selected_model (gui a)) as [m|]; cbn in H; [rewrite H|];
    refused_with.
Qed.

Lemma enhance_refused a :
  available_models (gui a) = []
  ∨ model_truthy (get_selected_model (gui a)) = false →
  ∃ msg, run enhance_text a = run (messagebox showerror "Error" msg) a
    ∧ msg ∈ ["Please connect to a backend first";
             "Please select a model from the Connection tab"].
Proof.
  intros H. unfold run at 1, enhance_text, mbind, M_bind, self_gui.
  cbn beta iota.
  destruct (available_models (gui a)) eqn:Hav; [refused_with|].
  destruct H as [H|H]; [done|].
  destruct (get_selected_model (gui a)) as [m|]; cbn in H; [rewrite H|];
    refused_with.
Qed.

Lemma messagebox_sends_nothing k title msg a :
  net (run (messagebox k title msg) a) = net a.
Proof. destruct a. reflexivity. Qed.

(** X12: without a list of models on display, or without a selected
    model, each of the three operations does nothing but open one error
    dialog that says what is missing: no request is sent and nothing else
    of the application changes. *)
Theorem operations_need_catalog_and_model (a : App) (op : Method unit) :
  available_models (gui a) = []
  ∨ model_truthy (get_selected_model (gui a)) = false →
  op ∈ [analyze_single_image; process_batch; enhance_text] →
  ∃ msg,
    run op a = run (messagebox showerror "Error" msg) a
    ∧ msg ∈ ["Please select an image first";
             "Please select a folder first";
             "Please connect to a backend first";
             "Please select a model from the Connection tab"]
    ∧ sent (net (run op a)) = sent (net a).
Proof.
  intros H Hop. rewrite !elem_of_cons, elem_of_nil in Hop.
  destruct Hop as [->|[->|[->|[]]]].
  - destruct (analyze_refused a H) as (msg & Hrun & Hmsg).
    exists msg. rewrite Hrun, messagebox_sends_nothing.
    split; [reflexivity|]. split; [|reflexivity].
    rewrite !elem_of_cons, elem_of_nil in Hmsg.
    destruct Hmsg as [->|[->|[->|[]]]];
      repeat first [apply list_elem_of_here | apply list_elem_of_further].
  - destruct (batch_refused a H) as (msg & Hrun & Hmsg).
    exists msg. rewrite Hrun, messagebox_sends_nothing.
    split; [reflexivity|]. split; [|reflexivity].
    rewrite !elem_of_cons, elem_of_nil in Hmsg.
    destruct Hmsg as [->|[->|[->|[]]]];
      repeat first [apply list_elem_of_here | apply list_elem_of_further].
  - destruct (enhance_refused a H) as (msg & Hrun & Hmsg).
    exists msg. rewrite Hrun, messagebox_sends_nothing.
    split; [reflexivity|]. split; [|reflexivity].
    rewrite !elem_of_cons, elem_of_nil in Hmsg.
    destruct Hmsg as [->|[->|[]]];
      repeat first [apply list_elem_of_here | apply list_elem_of_further].
Qed.

Lemma load_models_other_backend a :
  backend_var (gui a) ≠ "ollama" → backend_var (gui a) ≠ "openai" →
  backend_var (gui a) ≠ "openrouter" →
  load_models a = (Val tt, a <| gui ::= cleared |>).
Proof.
  destruct a as [[] n sf fo]. cbn [gui backend_var]. intros H1 H2 H3.
  apply String.eqb_neq in H1, H2, H3.
  unfold load_models, try_except_all, mbind, M_bind, update, modify, self_gui.
  cbn. rewrite H1, H2, H3. reflexivity.
Qed.

(** X13: [load_models] has no branch for TextGen.  So a connect to
    TextGen that ends connected leaves the list of models empty and the
    selection as it was, and every operation is refused afterwards: a
    TextGen connection cannot be used. *)
Theorem textgen_connection_has_no_models (a : App) :
  backend_var (gui a) = "textgen" →
  is_connected (gui a) = false →
  let a' := run connect_backend a in
  is_connected (gui a') = true →
  available_models (gui a') = [] ∧ models_listbox (gui a') = []
  ∧ selected_model (gui a') = selected_model (gui a)
  ∧ ∀ op, op ∈ [analyze_single_image; process_batch; enhance_text] →
      sent (net (run op a')) = sent (net a').
Proof.
  intros Hb Hc. cbv zeta.
  destruct (connect_backend_outcome a)
    as (a' & Hrun & _ & [(msg & _ & Hg)|(a1 & a2 & Hg1 & Hl & _ & Hsel & Hav & _ & _
                                          & Hbox & _)]);
    (assert (run connect_backend a = a') as ->
       by (unfold run; rewrite Hrun; reflexivity));
    clear Hrun; intros Hcon.
  { assert (is_connected (gui a') = is_connected (gui a)) as Heq
      by (rewrite <- Hg; destruct (gui a'); reflexivity).
    congruence. }
  assert (backend_var (gui a1) = "textgen" ∧ selected_model (gui a1) = selected_model (gui a))
    as [Hb1 Hs1] by (rewrite <- Hg1 in Hb |- *; destruct (gui a1); by split).
  rewrite load_models_other_backend in Hl by (rewrite Hb1; discriminate).
  injection Hl as <-.
  assert (available_models (gui a') = []) as Hnil
    by (rewrite Hav; destruct a1 as [[] ? ? ?]; reflexivity).
  split; [exact Hnil|].
  split; [rewrite Hbox; destruct a1 as [[] ? ? ?]; reflexivity|].
  split.
  { rewrite Hsel, <- Hs1. destruct a1 as [[] ? ? ?]. reflexivity. }
  intros op Hop. rewrite !elem_of_cons, elem_of_nil in Hop.
  destruct Hop as [->|[->|[->|[]]]].
  - destruct (analyze_refused a' (or_introl Hnil)) as (msg & Hrun & _).
    rewrite Hrun. apply (f_equal sent), messagebox_sends_nothing.
  - destruct (batch_refused a' (or_introl Hnil)) as (msg & Hrun & _).
    rewrite Hrun. apply (f_equal sent), messagebox_sends_nothing.
  - destruct (enhance_refused a' (or_introl Hnil)) as (msg & Hrun & _).
    rewrite Hrun. apply (f_equal sent), messagebox_sends_nothing.
Qed.

Lemma connect_tail_net a :
  net ((update_default_model_display;;
        select_default_model;;
        update (λ g, g <| is_connected := true |>)) a).2 = net a.
Proof.
  destruct a as [[] n sf fo].
  unfold update_default_model_display, select_default_model,
    update_model_status_display, mbind, M_bind, update, modify, self_gui.
  simpl.
  destruct available_models0 as [|first_model rest]; simpl; [reflexivity|].
  destruct (Py.nonempty (Py.strip default_model_var0)
            && Py.mem (Py.strip default_model_var0) (first_model :: rest));
    reflexivity.
Qed.

Lemma load_models_ollama_sent a c :
  backend_var (gui a) = "ollama" → api (gui a) = Some c →
  sent (net (load_models a).2)
  = sent (net a)
    ++ [gateway_request c "ConnectToOllamaAsync"
          (data_with_session c (connect_ollama_data default_ollama_url true))].
Proof.
  destruct a as [[] n sf fo]. cbn [gui backend_var api net].
  intros -> ->.
  unfold load_models, try_except_all, mbind, M_bind, update, modify, self_gui,
    call, messagebox, connect_ollama.
  simpl.
  repeat (first
    [ rewrite make_request_unfold
    | match goal with
      | |- context [store_models ?r ?a] =>
          destruct (store_models_outcome r a) as [[? ->] | [? ->]]
      end
    | split_goal_match ]; simpl).
  all: reflexivity.
Qed.

(** X14: a connect to Ollama asks the gateway twice: the connection is
    tried at the URL of the entry, and then the catalog is fetched with
    the built-in URL [http://localhost:11434], whatever the entry holds. *)
Theorem ollama_catalog_is_fetched_from_default_url (a : App)
    (data result : dict) (sid : json) :
  let c0 := new_api (swarmui_url_var (gui a)) in
  let c := c0 <| session_id := sid |> in
  let r1 := bootstrap_request c0 in
  let r2 := gateway_request c "ConnectToOllamaAsync"
              (data_with_session c
                 (connect_ollama_data (ollama_url_var (gui a)) true)) in
  let r3 := gateway_request c "ConnectToOllamaAsync"
              (data_with_session c
                 (connect_ollama_data "http://localhost:11434" true)) in
  backend_var (gui a) = "ollama" →
  answer (net a) r1 = Response data →
  data !! "session_id" = Some sid →
  answer (log r1 (net a)) r2 = Response result →
  truthy (dict_get result "success" (JBool false)) = true →
  sent (net (run connect_backend a)) = sent (net a) ++ [r1; r2; r3]
  ∧ is_connected (gui (run connect_backend a)) = true.
Proof.
  intros c0 c r1 r2 r3 Hb H1 H2 H3 H4. subst c0 c r1 r2 r3.
  destruct a as [[] n sf fo]. cbn [gui net backend_var swarmui_url_var
    ollama_url_var] in *. subst.
  unfold run, connect_backend.
  pose proof connect_tail as Htail.
  pose proof connect_tail_net as Hnet.
  set (tail := (update_default_model_display;; select_default_model;; update _))
    in *.
  clearbody tail.
  unfold connect_backend_result, update_session_id_display,
    try_except_all, mbind, M_bind, update, modify, self_gui, call, messagebox,
    connect_ollama, get_session_id, self_api, getitem.
  simpl. rewrite get_swarmui_session_unfold. cbn zeta. rewrite H1, H2.
  simpl. repeat (eval_literal_lookup; simpl).
  rewrite make_request_unfold. cbn zeta. simpl in H3 |- *.
  rewrite H3. simpl. rewrite H4.
  match goal with
  | |- context [load_models ?a1] =>
      pose proof (load_models_ollama_sent a1 _ eq_refl eq_refl) as Hsent;
      destruct (load_models_outcome a1) as (a2 & Hl & _);
      rewrite Hl in Hsent |- *; cbn beta iota;
      specialize (Hnet a2);
      destruct (Htail a2) as (a3 & Ht & Hcon & _);
      rewrite Ht in Hnet |- *
  end.
  cbn [snd fst] in *. rewrite Hnet, Hsent. split; [|exact Hcon].
  simpl. unfold constant. rewrite <- !app_assoc. reflexivity.
Qed.

(** X15: a connect to TextGen with an empty URL entry, and a connect
    with a backend name that is none of the four, end after the session
    bootstrap: nothing else is sent, the application stays as connected
    as it was, and an error dialog names the reason. *)
Theorem connect_rejects_missing_url_and_unknown_backend (a : App) :
  backend_var (gui a) = "textgen" ∧ ollama_url_var (gui a) = ""
  ∨ backend_var (gui a) ∉ ["ollama"; "textgen"; "openai"; "openrouter"] →
  let a' := run connect_backend a in
  let r := bootstrap_request (new_api (swarmui_url_var (gui a))) in
  sent (net a') = sent (net a) ++ [r]
  ∧ is_connected (gui a') = is_connected (gui a)
  ∧ available_models (gui a') = available_models (gui a)
  ∧ selected_model (gui a') = selected_model (gui a)
  ∧ (∀ data, answer (net a) r = Response data →
       is_Some (data !! "session_id") →
       dialogs (gui a')
       = dialogs (gui a)
         ++ [Dialog showerror "Error"
               (if String.eqb (backend_var (gui a)) "textgen"
                then "TextGen URL is required"
                else "Connection failed: Unknown backend type")]).
Proof.
  intros H. cbv zeta.
  destruct a as [[] n sf fo]. cbn [gui net backend_var swarmui_url_var
    ollama_url_var is_connected available_models selected_model dialogs] in *.
  unfold run, connect_backend, connect_backend_result, update_session_id_display,
    try_except_all, mbind, M_bind, update, modify, self_gui, call, messagebox,
    get_session_id, self_api, getitem.
  simpl. rewrite get_swarmui_session_unfold. cbn zeta.
  destruct H as [[-> ->]|H].
  - destruct (answer n _) as [data|cause]; simpl;
      [destruct (data !! "session_id") eqn:Hsid; simpl|].
    all: repeat split.
    all: intros data' Heq [sid Hs]; try discriminate Heq;
      injection Heq as <-; try congruence; reflexivity.
  - rewrite !not_elem_of_cons in H. destruct H as (H1 & H2 & H3 & H4 & _).
    apply String.eqb_neq in H1, H2, H3, H4.
    destruct (answer n _) as [data|cause]; simpl;
      [destruct (data !! "session_id") eqn:Hsid; simpl|].
    all: repeat (eval_literal_lookup; simpl).
    all: rewrite ?H1, ?H2, ?H3, ?H4; simpl.
    all: repeat split.
    all: intros data' Heq [sid Hs]; try discriminate Heq;
      injection Heq as <-; try congruence; reflexivity.
Qed.

(** ** What the operations show *)

(** X16: an analysis that passes the gates changes one thing.  When the
    gateway cannot be reached it opens the dialog "Analysis failed: API
    request failed: <cause>" and leaves the result field alone; when the
    gateway answers, the result field gets the response, or "No analysis
    response received." for a missing or empty one, or "Error: <message>"
    when the answer does not report success. *)
Theorem analysis_outcome_is_shown (a : App) (c : OllamaVisionAPI)
    (model image_data : string) :
  api (gui a) = Some c →
  available_models (gui a) ≠ [] →
  get_selected_model (gui a) = Some model → model ≠ "" →
  current_image_data (gui a) = Some image_data → image_data ≠ "" →
  let g := gui a in
  let g' := gui (run analyze_single_image a) in
  (∀ cause, (∀ r, answer (net a) r = Failure cause) →
     g' = g <| dialogs := dialogs g
                 ++ [Dialog showerror "Error"
                       ("Analysis failed: API request failed: " +:+ cause)] |>)
  ∧ (∀ result, (∀ r, answer (net a) r = Response result) →
     g' = g <| image_analysis_text :=
                 if truthy (dict_get result "success" JNull) then
                   if truthy (dict_get result "response" (JStr ""))
                   then tk_str (dict_get result "response" (JStr ""))
                   else "No analysis response received."
                 else "Error: "
                      +:+ py_str (dict_get result "message"
                                    (JStr "Unknown error occurred")) |>).
Proof.
  intros Hc Hav Hsel Hm Himg Hi. apply nonempty_true in Hm, Hi.
  cbv zeta.
  unfold run, analyze_single_image, _analyze_image_thread, analyze_image,
    display_image_analysis_result, try_except_all, mbind, M_bind, update, modify,
    self_gui, call, messagebox.
  cbn beta iota. rewrite Himg, Hsel. cbn [model_truthy negb]. cbn beta iota.
  rewrite Hi, Hm. cbn [negb].
  destruct (available_models (gui a)) as [|? ?] eqn:Hav'; [done|].
  cbn beta iota. rewrite Hc, make_request_unfold. cbn zeta beta iota.
  rewrite Himg. cbn [default from_option id].
  split; [intros cause Hall|intros result Hall]; rewrite Hall;
    destruct a as [[] n sf fo]; cbn in Hc; subst; reflexivity.
Qed.

(** X17: a text enhancement that passes the gates changes one thing.
    When the gateway cannot be reached it opens the dialog "Text
    enhancement failed: API request failed: <cause>"; when the gateway
    answers, the result field gets the response (an empty one included),
    or "No enhanced text received." when the answer has none, or
    "Error: <message>" when the answer does not report success. *)
Theorem enhancement_outcome_is_shown (a : App) (c : OllamaVisionAPI)
    (model : string) :
  api (gui a) = Some c →
  available_models (gui a) ≠ [] →
  get_selected_model (gui a) = Some model → model ≠ "" →
  Py.strip (text_input (gui a)) ≠ "" →
  let g := gui a in
  let g' := gui (run enhance_text a) in
  (∀ cause, (∀ r, answer (net a) r = Failure cause) →
     g' = g <| dialogs := dialogs g
                 ++ [Dialog showerror "Error"
                       ("Text enhancement failed: API request failed: "
                        +:+ cause)] |>)
  ∧ (∀ result, (∀ r, answer (net a) r = Response result) →
     g' = g <| text_results_text :=
                 if truthy (dict_get result "success" JNull) then
                   match result !! "response" with
                   | Some response => tk_str response
                   | None => "No enhanced text received."
                   end
                 else "Error: "
                      +:+ py_str (dict_get result "message"
                                    (JStr "Unknown error occurred")) |>).
Proof.
  intros Hc Hav Hsel Hm Ht. apply nonempty_true in Hm, Ht.
  cbv zeta.
  unfold run, enhance_text, _enhance_text_thread, enhance_text_prompt,
    display_text_result, try_except_all, mbind, M_bind, update, modify,
    self_gui, call, messagebox.
  cbn beta iota. rewrite Hsel. cbn beta iota. rewrite Hm, Ht. cbn [negb].
  destruct (available_models (gui a)) as [|? ?] eqn:Hav'; [done|].
  cbn beta iota.
  rewrite Hc, make_request_unfold. cbn zeta beta iota.
  split; [intros cause Hall|intros result Hall]; rewrite Hall;
    destruct a as [[] n sf fo]; cbn in Hc; subst; reflexivity.
Qed.

(** X18: a batch run that passes the gates and finds an image in the
    folder shows nothing when the gateway reports success.  A failure
    reported by the gateway opens a dialog that reads the key [error] of
    the answer, not [message]: for an answer without [error] the dialog
    says "Error: Unknown error occurred", whatever the message was.  When
    the gateway cannot be reached the dialog is "Batch processing failed:
    API request failed: <cause>". *)
Theorem batch_outcome_is_shown (a : App) (c : OllamaVisionAPI)
    (model : string) (files : list string) :
  api (gui a) = Some c →
  available_models (gui a) ≠ [] →
  get_selected_model (gui a) = Some model → model ≠ "" →
  folder_path_var (gui a) ≠ "" →
  folders a (folder_path_var (gui a)) = Some files →
  List.filter is_image_file files ≠ [] →
  let g := gui a in
  let g' := gui (run process_batch a) in
  (∀ cause, (∀ r, answer (net a) r = Failure cause) →
     g' = g <| dialogs := dialogs g
                 ++ [Dialog showerror "Error"
                       ("Batch processing failed: API request failed: "
                        +:+ cause)] |>)
  ∧ (∀ result, (∀ r, answer (net a) r = Response result) →
     (truthy (dict_get result "success" JNull) = true → g' = g)
     ∧ (truthy (dict_get result "success" JNull) = false →
        g' = g <| dialogs := dialogs g
                    ++ [Dialog showerror "Batch Processing Error"
                          ("Error: "
                           +:+ py_str (dict_get result "error"
                                         (JStr "Unknown error occurred")))] |>
        ∧ (result !! "error" = None →
           g' = g <| dialogs := dialogs g
                       ++ [Dialog showerror "Batch Processing Error"
                             "Error: Unknown error occurred"] |>))).
Proof.
  intros Hc Hav Hsel Hm Hf Hdir Himgs. apply nonempty_true in Hm, Hf.
  cbv zeta.
  unfold run, process_batch, _process_batch_thread, batch_caption_images,
    display_batch_result, listdir, try_except_all, mbind, M_bind, update, modify,
    self_gui, call, messagebox.
  cbn beta iota. rewrite Hsel. cbn beta iota. rewrite Hm, Hf. cbn [negb].
  destruct (available_models (gui a)) as [|? ?] eqn:Hav'; [done|].
  cbn beta iota. rewrite Hdir. cbn beta iota.
  destruct (List.filter is_image_file files) as [|? ?] eqn:Hfl; [done|].
  rewrite Hc, make_request_unfold. cbn zeta beta iota.
  split; [intros cause Hall|intros result Hall]; rewrite Hall.
  - destruct a as [[] n sf fo]; cbn in Hc; subst; reflexivity.
  - cbn beta iota. split; [intros Hs|intros Hs; split; [|intros He]];
      rewrite Hs; cbn [negb]; cbn beta iota.
    + destruct a as [[] n sf fo]; cbn in Hc; subst; reflexivity.
    + destruct a as [[] n sf fo]; cbn in Hc; subst; reflexivity.
    + unfold dict_get at 1. rewrite He.
      destruct a as [[] n sf fo]; cbn in Hc; subst; reflexivity.
Qed.

(** X19: a batch run that passes the gates on a folder without image
    files does nothing: no request is sent and no dialog opens.  On a
    folder that cannot be listed it opens one dialog "Batch processing
    failed: ..." and sends nothing. *)
Theorem batch_without_images_sends_nothing (a : App) (model : string) :
  available_models (gui a) ≠ [] →
  get_selected_model (gui a) = Some model → model ≠ "" →
  folder_path_var (gui a) ≠ "" →
  (∀ files, folders a (folder_path_var (gui a)) = Some files →
     (∀ f, f ∈ files → is_image_file f = false) →
     run process_batch a = a)
  ∧ (folders a (folder_path_var (gui a)) = None →
     ∃ msg, run process_batch a
            = run (messagebox showerror "Error"
                     ("Batch processing failed: " +:+ msg)) a).
Proof.
  intros Hav Hsel Hm Hf. apply nonempty_true in Hm, Hf.
  split; [intros files Hd Hnone|intros Hd].
  all: unfold run, process_batch, _process_batch_thread, listdir,
    try_except_all, mbind, M_bind, self_gui.
  all: cbn beta iota; rewrite Hsel; cbn beta iota; rewrite Hm, Hf; cbn [negb].
  all: destruct (available_models (gui a)) as [|? ?] eqn:Hav'; [done|].
  all: cbn beta iota; rewrite Hd; cbn beta iota.
  - assert (List.filter is_image_file files = []) as ->.
    { clear -Hnone. induction files as [|f files IH]; [reflexivity|].
      cbn [List.filter]. rewrite (Hnone f) by apply list_elem_of_here.
      apply IH. intros f' Hf'. apply Hnone. by apply list_elem_of_further. }
    reflexivity.
  - eexists. reflexivity.
Qed.

(** ** Further properties of the settings *)

Lemma apply_auto_saved (u b o k d sid ok ork tg : string) g :
  apply_settings
    {| st_swarmui_url := Some u;
       st_backend := Some b;
       st_ollama_url := Some o;
       st_api_key := Some k;
       st_default_model := Some d;
       st_session_id := Some sid;
       st_openai_api_key := Some ok;
       st_openrouter_api_key := Some ork;
       st_textgen_url := Some tg;
       st_temperature := None; st_max_tokens := None; st_top_p := None;
       st_top_k := None; st_repeat_penalty := None; st_seed := None;
       st_frequency_penalty := None; st_presence_penalty := None;
       st_min_p := None; st_top_a := None |} g =
    g <| swarmui_url_var := u |>
      <| backend_var := b |>
      <| ollama_url_var := o |>
      <| api_key_var := k |>
      <| default_model_var := d |>
      <| session_id_var := if Py.nonempty sid then sid else session_id_var g |>
      <| openai_api_key := ok |>
      <| openrouter_api_key := ork |>
      <| textgen_url := tg |>
      <| temperature_var := 0.8%float |>
      <| max_tokens_var := 500%Z |>
      <| top_p_var := 0.7%float |>
      <| top_k_var := 40%Z |>
      <| repeat_penalty_var := 1.1%float |>
      <| seed_var := (-1)%Z |>
      <| frequency_penalty_var := 0.0%float |>
      <| presence_penalty_var := 0.0%float |>
      <| min_p_var := 0.0%float |>
      <| top_a_var := 0.0%float |>.
Proof.
  destruct g. unfold apply_settings.
  cbn [st_session_id default from_option id session_id_var].
  destruct (Py.nonempty sid); reflexivity.
Qed.

Lemma load_after_auto_save a :
  let g := gui a in
  let g' := gui (run load_settings (run auto_save_settings a)) in
  (temperature_var g' = 0.8%float
   ∧ max_tokens_var g' = 500%Z
   ∧ top_p_var g' = 0.7%float
   ∧ top_k_var g' = 40%Z
   ∧ repeat_penalty_var g' = 1.1%float
   ∧ seed_var g' = (-1)%Z
   ∧ frequency_penalty_var g' = 0.0%float
   ∧ presence_penalty_var g' = 0.0%float
   ∧ min_p_var g' = 0.0%float
   ∧ top_a_var g' = 0.0%float)
  ∧ (swarmui_url_var g' = swarmui_url_var g
     ∧ backend_var g' = backend_var g
     ∧ ollama_url_var g' = ollama_url_var g
     ∧ default_model_var g' = default_model_var g).
Proof.
  destruct a as [[] n sf fo].
  (unfold run, auto_save_settings, load_settings, try_except_all, mbind, M_bind,
    self_gui, update, modify, get_state, write_settings; simpl).
  rewrite store_current_credential_fields. simpl.
  rewrite apply_auto_saved. simpl.
  rewrite on_backend_change_fields. simpl.
  unfold update_default_model_display, mbind, M_bind, self_gui, update, modify.
  simpl. unfold constant.
  (destruct (String.eqb_spec backend_var0 "openai") as [->|?];
    [|destruct (String.eqb_spec backend_var0 "openrouter") as [->|?];
      [|destruct (String.eqb_spec backend_var0 "textgen") as [->|?]]];
    simpl).
  all: repeat split.
Qed.

Lemma save_settings_keeps a :
  let g := gui a in
  let g' := gui (run save_settings a) in
  swarmui_url_var g' = swarmui_url_var g
  ∧ backend_var g' = backend_var g
  ∧ ollama_url_var g' = ollama_url_var g
  ∧ default_model_var g' = default_model_var g.
Proof.
  destruct a as [[] n sf fo].
  (unfold run, save_settings, try_except_all, mbind, M_bind, self_gui, update,
    modify, write_settings, messagebox; simpl).
  rewrite store_current_credential_fields. repeat split.
Qed.

Lemma type_api_key_auto_saves key a :
  ∃ a0, run (type_api_key key) a = run auto_save_settings a0
    ∧ swarmui_url_var (gui a0) = swarmui_url_var (gui a)
    ∧ backend_var (gui a0) = backend_var (gui a)
    ∧ ollama_url_var (gui a0) = ollama_url_var (gui a)
    ∧ default_model_var (gui a0) = default_model_var (gui a).
Proof.
  destruct a as [[] n sf fo].
  unfold run, type_api_key, on_api_key_change, mbind, M_bind, update, modify.
  cbn beta iota. eexists. split; [reflexivity|]. cbn.
  destruct (String.eqb backend_var0 "openai"); [repeat split|].
  destruct (String.eqb backend_var0 "openrouter"); repeat split.
Qed.

(** X20: the settings file written by the automatic save, which runs
    at every key typed in the API-key entry (and when a default model is
    set), has no sampling parameters.  Loading it resets all ten to the
    built-in defaults, whatever they were and whatever an earlier
    [save_settings] had stored, while the URLs, the backend and the
    default model come back. *)
Theorem auto_save_drops_sampling_parameters (a : App) (key : string)
    (act : Method unit) :
  act ∈ [auto_save_settings; type_api_key key] →
  let g := gui a in
  let saved := run act (run save_settings a) in
  let g' := gui (run load_settings saved) in
  (temperature_var g' = 0.8%float
   ∧ max_tokens_var g' = 500%Z
   ∧ top_p_var g' = 0.7%float
   ∧ top_k_var g' = 40%Z
   ∧ repeat_penalty_var g' = 1.1%float
   ∧ seed_var g' = (-1)%Z
   ∧ frequency_penalty_var g' = 0.0%float
   ∧ presence_penalty_var g' = 0.0%float
   ∧ min_p_var g' = 0.0%float
   ∧ top_a_var g' = 0.0%float)
  ∧ (swarmui_url_var g' = swarmui_url_var g
     ∧ backend_var g' = backend_var g
     ∧ ollama_url_var g' = ollama_url_var g
     ∧ default_model_var g' = default_model_var g).
Proof.
  intros Hact. rewrite !elem_of_cons, elem_of_nil in Hact. cbv zeta.
  destruct (save_settings_keeps a) as (Hs1 & Hs2 & Hs3 & Hs4).
  destruct Hact as [->|[->|[]]].
  - destruct (load_after_auto_save (run save_settings a))
      as (Hd & H1 & H2 & H3 & H4).
    split; [exact Hd|]. repeat split; congruence.
  - destruct (type_api_key_auto_saves key (run save_settings a))
      as (a0 & -> & E1 & E2 & E3 & E4).
    destruct (load_after_auto_save a0) as (Hd & H1 & H2 & H3 & H4).
    split; [exact Hd|]. repeat split; congruence.
Qed.

(** X21: at start-up the session field shows the token of the new
    client, which has none: the session id stored in the settings file
    is put on display by [load_settings] and overwritten at once, and no
    request is sent. *)
Theorem start_up_shows_no_session (a : App) (c : OllamaVisionAPI) :
  api (gui a) = Some c →
  let a' := run init a in
  session_id_var (gui a') = tk_str (session_id c)
  ∧ api (gui a') = Some c
  ∧ net a' = net a
  ∧ (gui a = initial_gui → session_id_var (gui a') = "None").
Proof.
  intros Hc. cbv zeta.
  destruct a as [[] n sf fo]. cbn [gui api] in Hc. subst.
  unfold run, init, load_settings, update_session_id_display, try_except_all,
    mbind, M_bind, self_gui, update, modify, get_state, call, get_session_id,
    self_api.
  simpl. destruct sf as [settings|]; simpl.
  - rewrite on_backend_change_fields. simpl.
    unfold update_default_model_display, mbind, M_bind, self_gui, update, modify.
    simpl. unfold apply_settings. simpl.
    destruct (Py.nonempty (default "" (st_session_id settings))); simpl;
      (repeat split; intros [= -> ]; reflexivity).
  - repeat split. intros [= -> ]. reflexivity.
Qed.

(** X22: the API keys of OpenAI and OpenRouter are kept apart.  A key
    typed while one of them is chosen comes back in the entry when that
    backend is chosen again, also after a visit to the other provider or
    to Ollama, where the entry is emptied; both keys are in the settings
    file. *)
Theorem backend_switch_keeps_each_key (a : App) (k1 k2 : string) :
  let a1 := run (type_api_key k1) (run (select_backend "openai") a) in
  let a2 := run (type_api_key k2) (run (select_backend "openrouter") a1) in
  api_key_var (gui (run (select_backend "openai") a2)) = k1
  ∧ api_key_var (gui (run (select_backend "ollama") a2)) = ""
  ∧ api_key_var
      (gui (run (select_backend "openrouter")
              (run (select_backend "ollama") a2))) = k2
  ∧ api_key_var
      (gui (run (select_backend "openai")
              (run (select_backend "ollama") a2))) = k1
  ∧ (∃ s, settings_file a2 = Some s
          ∧ st_openai_api_key s = Some k1
          ∧ st_openrouter_api_key s = Some k2).
Proof.
  cbv zeta. destruct a as [[] n sf fo].
  unfold run, select_backend, type_api_key, on_api_key_change, mbind, M_bind,
    update, modify.
  simpl. rewrite ?on_backend_change_fields. simpl.
  repeat split. eexists. repeat split.
Qed.

(** X23: choosing TextGen puts the TextGen URL into the URL entry, and
    choosing Ollama afterwards does not put the Ollama URL back: the
    entry, which an Ollama connect sends as [ollamaUrl], then holds the
    TextGen URL. *)
Theorem textgen_visit_overwrites_ollama_url (a : App) :
  let a' := run (select_backend "ollama") (run (select_backend "textgen") a) in
  backend_var (gui a') = "ollama"
  ∧ ollama_url_var (gui a') = textgen_url (gui a)
  ∧ textgen_url (gui a') = textgen_url (gui a).
Proof.
  cbv zeta. destruct a as [[] n sf fo].
  unfold run, select_backend, mbind, M_bind, update, modify.
  simpl. rewrite ?on_backend_change_fields. simpl. repeat split.
Qed.

(** X24: setting the selected model as the default writes it to the
    settings file at once, connected or not, and confirms with one
    dialog; a later [load_settings] of that file brings the default
    back. *)
Theorem default_model_is_saved_at_once (a : App) (m : string) :
  selected_model (gui a) = Some m → m ≠ "" →
  let a' := run set_as_default_model a in
  default_model_var (gui a') = m
  ∧ (∃ s, settings_file a' = Some s ∧ st_default_model s = Some m)
  ∧ dialogs (gui a')
    = dialogs (gui a)
      ++ [Dialog showinfo "Default Model Set"
            ("'" +:+ m +:+ "' has been set as your default model")]
  ∧ net a' = net a
  ∧ (∀ g0 n0 fo0,
       default_model_var
         (gui (run load_settings
                 {| gui := g0; net := n0; settings_file := settings_file a';
                    folders := fo0 |})) = m).
Proof.
  intros Hs Hm. apply nonempty_true in Hm. cbv zeta.
  destruct a as [[] n sf fo]. cbn [gui selected_model] in Hs. subst.
  unfold run, set_as_default_model, load_settings, try_except_all, mbind, M_bind,
    self_gui, get_state, messagebox, update, modify.
  simpl. rewrite Hm. simpl.
  unfold update_model_status_display, mbind, M_bind, self_gui, update, modify.
  simpl. rewrite !store_current_credential_fields. simpl.
  split; [reflexivity|]. split; [eexists; split; reflexivity|].
  split; [reflexivity|]. split; [reflexivity|].
  intros g0 n0 fo0. rewrite on_backend_change_fields. simpl.
  unfold apply_settings. simpl.
  match goal with
  | |- context [if ?c then _ else _] => destruct c
  end; reflexivity.
Qed.

(** X25: the silent [reset_session] of the window never raises and
    opens no dialog.  Without a client, or when no token is issued, the
    window stays as it was; when the gateway issues a token, the client
    stores it and the session field shows it. *)
Theorem window_reset_session_is_silent (a : App) :
  (reset_session a).1 = Val tt
  ∧ dialogs (gui (run reset_session a)) = dialogs (gui a)
  ∧ (api (gui a) = None → run reset_session a = a)
  ∧ (∀ c, api (gui a) = Some c →
       (∀ data, answer (net a) (bootstrap_request c) = Response data →
                data !! "session_id" = None →
                gui (run reset_session a) = gui a)
       ∧ (∀ cause, answer (net a) (bootstrap_request c) = Failure cause →
                   gui (run reset_session a) = gui a)
       ∧ (∀ data sid, answer (net a) (bootstrap_request c) = Response data →
                      data !! "session_id" = Some sid →
                      gui (run reset_session a)
                      = (gui a) <| api := Some (c <| session_id := sid |>) |>
                                <| session_id_var := tk_str sid |>)).
Proof.
  destruct a as [[] n sf fo].
  unfold run, reset_session, reset_session_api, update_session_id_display,
    try_except_all, mbind, M_bind, call, get_session_id, self_api, getitem,
    update, modify, raise.
  cbn [gui api net dialogs].
  destruct api0 as [c|]; [|repeat split; intros c'; discriminate].
  rewrite get_swarmui_session_unfold. cbn zeta.
  destruct (answer n (bootstrap_request c)) as [data|cause] eqn:Hans;
    [destruct (data !! "session_id") as [sid|] eqn:Hsid|].
  all: repeat (eval_literal_lookup; simpl).
  all: split; [reflexivity|]. all: split; [reflexivity|].
  all: split; [discriminate|].
  all: intros c' [= <-]; rewrite Hans; split; [|split].
  all: try (intros; congruence).
  all: try (intros; reflexivity).
  intros data' sid' [= <-] Hs. rewrite Hsid in Hs. injection Hs as <-.
  reflexivity.
Qed.

End Methods.

(** * The theorems at concrete inputs *)

(** C1, counterexample: with the gateway unreachable, [analyze_image]
    does not return a result with [success] false: it raises. *)
Lemma analyze_image_raises_when_gateway_unreachable :
  (analyze_image "data:image/png;base64,AAAA" "llava" "ollama"
     "Describe this image in detail" 0.8%float 500 default_ollama_url None
     default_site_name None (new_api default_swarmui_url, refusing_net)).1
  = Exn (Raise Exception "API request failed: Connection refused").
Proof. vm_compute. reflexivity. Qed.

(** C1, witness: the unreachable gateway. *)
Lemma transport_failure_outcomes_witness :
  (∀ r, answer refusing_net r = Failure "Connection refused")
  ∧ (get_swarmui_session (new_api default_swarmui_url, refusing_net)).1
    = Val {[ "success" := JBool false;
             "message" := JStr "Failed to get SwarmUI session: Connection refused" ]}.
Proof.
  split; [reflexivity|].
  rewrite (proj1 (proj1 (transport_failure_outcomes plain_repr plain_repr
                           "director" "qwen" "wan" (new_api default_swarmui_url)
                           refusing_net "Connection refused" "" (λ r, eq_refl)))).
  reflexivity.
Defined.



(** C3, counterexample: the body of an image analysis for TextGen has the
    six fields of the operation and no field for the backend URL. *)
Lemma textgen_body_carries_no_url :
  let body :=
    analyze_image_data "data:image/png;base64,AAAA" "mistral" "textgen"
      "Describe this image in detail" 0.8%float 500 "http://localhost:5000"
      None default_site_name None in
  dom body = {[ "model"; "backendType"; "imageData"; "prompt"; "temperature";
                "maxTokens" ]}
  ∧ body !! "backendType" = Some (JStr "textgen")
  ∧ body !! "textgenUrl" = None
  ∧ body !! "ollamaUrl" = None.
Proof. vm_compute. repeat split. Qed.

(** C4, counterexample: connected to OpenAI, the key entry emptied, an
    image loaded: [analyze_single_image] shows no validation error and
    sends the request, with the empty key in it. *)
Lemma analyze_is_sent_without_api_key :
  let a := keyless_openai_app plain_repr plain_repr in
  let a' := run (analyze_single_image plain_repr plain_repr "director") a in
  let body : dict :=
    <["session_id" := JStr "session-1"]>
      (analyze_image_data "data:image/png;base64,AAAA" "gpt-4o" "openai"
         "Describe this image in detail" 0.8%float 500 default_ollama_url
         (Some "") default_site_name None) in
  backend_var (gui a) = "openai"
  ∧ api_key_var (gui a) = ""
  ∧ is_connected (gui a) = true
  ∧ sent (net a')
    = sent (net a)
      ++ [Request POST "http://localhost:7801/API/AnalyzeImageAsync" api_headers
            (Some body) 120]
  ∧ body !! "apiKey" = Some (JStr "")
  ∧ dialogs (gui a') = dialogs (gui a)
  ∧ image_analysis_text (gui a') = "Error: Invalid API key".
Proof. vm_compute. repeat split. Qed.

(** C4, witness: OpenAI chosen and no key typed. *)
Lemma api_key_checked_at_listing_and_connect_witness :
  let a := run (select_backend "openai") (app_with initial_gui openai_server) in
  api_key_var (gui a) = ""
  ∧ sent (net (run (load_models plain_repr) a)) = []
  ∧ is_connected (gui (run (connect_backend plain_repr plain_repr) a)) = false.
Proof.
  cbv zeta.
  pose proof (proj1 (api_key_checked_at_listing_and_connect plain_repr plain_repr
                       "director" "qwen" "wan"
                       (run (select_backend "openai")
                          (app_with initial_gui openai_server)))
                eq_refl eq_refl) as ((Hsent & _) & _ & Hconn).
  split; [reflexivity|]. split; [exact Hsent | exact Hconn].
Defined.



(** C7, witness: a listing with two entries, one of them with more than
    an id. *)
Lemma provider_listing_returns_every_model_id_witness :
  let entries : list dict :=
    [ {[ "id" := JStr "gpt-4o"; "owned_by" := JStr "system" ]};
      {[ "id" := JStr "whisper-1" ]} ] in
  let n : Net :=
    {| server := λ _ _, Response {[ "object" := JStr "list";
                                    "data" := JArr (JObj <$> entries) ]};
       sent := [] |} in
  (get_openai_models "sk-test" (new_api default_swarmui_url, n)).1
  = Val {[ "success" := JBool true;
           "models" := JArr [JStr "gpt-4o"; JStr "whisper-1"] ]}.
Proof.
  cbv zeta.
  pose proof (provider_listing_returns_every_model_id
                (new_api default_swarmui_url)
                {| server := λ _ _, Response
                     {[ "object" := JStr "list";
                        "data" := JArr (JObj <$>
                          [ {[ "id" := JStr "gpt-4o"; "owned_by" := JStr "system" ]};
                            ({[ "id" := JStr "whisper-1" ]} : dict) ]) ]};
                   sent := [] |}
                "sk-test" _ _ openai_models_url
                (or_introl eq_refl) eq_refl eq_refl) as (Hcall & _).
  cbv zeta in Hcall. change (String.eqb openai_models_url openai_models_url) with true in Hcall.
  cbv iota in Hcall. rewrite Hcall. reflexivity.
Defined.


(** C10, witness: the Ollama catalog arrives while "ll" is in the search
    box. *)
Lemma load_models_ignores_search_text_witness :
  let loaded := run (load_models plain_repr) stale_filter_app in
  fetches stale_filter_app ["llava"; "qwen-vl"; "bakllava"]
  ∧ filtered_models (gui loaded) = Py.sort ["llava"; "qwen-vl"; "bakllava"]
  ∧ model_search_var (gui loaded) = "ll".
Proof.
  cbv zeta.
  destruct (load_models_ignores_search_text plain_repr) as (Hall & Hf & _).
  destruct (Hall stale_filter_app _ Hf) as (_ & Hfil & _ & _ & Hs).
  split; [exact Hf|]. split; [exact Hfil | exact Hs].
Defined.

(** ** The further properties at concrete inputs *)

(** X2, witness: the gateway issues "session-1", and the TextGen connect
    that follows carries it. *)
Lemma request_after_bootstrap_carries_issued_token_witness :
  let self := new_api default_swarmui_url in
  let n : Net := {| server := three_models_server; sent := [] |} in
  let c := ConnectToTextGenAsync "http://localhost:5000" in
  sent (perform c (get_swarmui_session (self, n)).2).2.2
  = [bootstrap_request self;
     gateway_request self "ConnectToTextGenAsync"
       (<["session_id" := JStr "session-1"]>
          (connect_textgen_data "http://localhost:5000"))].
Proof.
  cbv zeta.
  rewrite (request_after_bootstrap_carries_issued_token
             (new_api default_swarmui_url)
             {| server := three_models_server; sent := [] |}
             ({[ "session_id" := JStr "session-1" ]} : dict) (JStr "session-1")
             (ConnectToTextGenAsync "http://localhost:5000")
             eq_refl eq_refl eq_refl).
  reflexivity.
Defined.

(** X4, witness: a provider that answers with an object and no list. *)
Lemma provider_listing_without_data_witness :
  let n : Net :=
    {| server := λ _ _, Response {[ "object" := JStr "list" ]}; sent := [] |} in
  (get_openai_models "sk-test" (new_api default_swarmui_url, n)).1
  = Val {[ "success" := JBool true; "models" := JArr [] ]}.
Proof.
  cbv zeta. unfold get_openai_models.
  pose proof (provider_listing_without_data openai_models_url "OpenAI"
                "sk-test" (new_api default_swarmui_url)
                {| server := λ _ _, Response ({[ "object" := JStr "list" ]} : dict);
                   sent := [] |}
                ({[ "object" := JStr "list" ]} : dict) eq_refl) as [Hnone _].
  rewrite Hnone by (vm_compute; reflexivity).
  reflexivity.
Defined.

(** X8, witness: connected to the gateway with three models, the first
    of which is selected, the user searches for "qwen". *)
Lemma search_keeps_selected_model_witness :
  let a := run (connect_backend plain_repr plain_repr) three_models_app in
  let g' := gui (run (set_model_search "qwen") a) in
  selected_model (gui a) = Some "bakllava"
  ∧ available_models g' = ["qwen-vl"]
  ∧ get_selected_model g' = Some "bakllava".
Proof.
  cbv zeta. split; [reflexivity|]. split; [reflexivity|].
  assert ("bakllava" ≠ "") as Hm by discriminate.
  exact (proj1 (proj2 (search_keeps_selected_model
                         (run (connect_backend plain_repr plain_repr)
                            three_models_app)
                         "qwen" "bakllava" eq_refl Hm))).
Defined.

(** X10, witness: the gateway lists three Ollama models. *)
Lemma loaded_catalog_is_sorted_permutation_witness :
  all_models (gui (run (load_models plain_repr) stale_filter_app))
  ≡ₚ ["llava"; "qwen-vl"; "bakllava"].
Proof.
  refine (proj1 (loaded_catalog_is_sorted_permutation plain_repr
                   stale_filter_app ["llava"; "qwen-vl"; "bakllava"] _)).
  exact (fetches_ollama stale_filter_app ["llava"; "qwen-vl"; "bakllava"]
           (new_api default_swarmui_url)
           ({[ "success" := JBool true;
               "models" := JArr (JStr <$> ["llava"; "qwen-vl"; "bakllava"]) ]}
            : dict)
           eq_refl eq_refl eq_refl eq_refl eq_refl).
Defined.

(** X12, witness: the application before the first connect. *)
Lemma operations_need_catalog_and_model_witness :
  available_models (gui three_models_app) = []
  ∧ sent (net (run (enhance_text plain_repr plain_repr "qwen" "wan")
                 three_models_app)) = [].
Proof.
  split; [reflexivity|].
  destruct (operations_need_catalog_and_model plain_repr plain_repr
              "director" "qwen" "wan" three_models_app
              (enhance_text plain_repr plain_repr "qwen" "wan")
              (or_introl eq_refl)
              (list_elem_of_further _ _ _
                 (list_elem_of_further _ _ _ (list_elem_of_here _ _))))
    as (msg & _ & _ & Hsent).
  exact Hsent.
Defined.

(** X13, witness: TextGen chosen, and the gateway accepts the URL. *)
Lemma textgen_connection_has_no_models_witness :
  let a' := run (connect_backend plain_repr plain_repr) textgen_app in
  backend_var (gui textgen_app) = "textgen"
  ∧ is_connected (gui a') = true
  ∧ available_models (gui a') = [].
Proof.
  cbv zeta. split; [reflexivity|]. split; [reflexivity|].
  exact (proj1 (textgen_connection_has_no_models plain_repr plain_repr
                  "director" "qwen" "wan" textgen_app
                  eq_refl eq_refl eq_refl)).
Defined.

(** X14, witness: the Ollama URL entry names another machine. *)
Lemma ollama_catalog_is_fetched_from_default_url_witness :
  let a := app_with (initial_gui <| ollama_url_var := "http://gpu-box:11434" |>)
             three_models_server in
  (λ r, req_json r ≫= (.!! "ollamaUrl"))
    <$> sent (net (run (connect_backend plain_repr plain_repr) a))
  = [None; Some (JStr "http://gpu-box:11434");
     Some (JStr "http://localhost:11434")].
Proof.
  cbv zeta.
  set (a := app_with
              (initial_gui <| ollama_url_var := "http://gpu-box:11434" |>)
              three_models_server).
  rewrite (proj1 (ollama_catalog_is_fetched_from_default_url plain_repr
                    plain_repr a
                    ({[ "session_id" := JStr "session-1" ]} : dict)
                    ({[ "success" := JBool true;
                        "models" := JArr (JStr <$> ["llava"; "qwen-vl"; "bakllava"]) ]}
                     : dict)
                    (JStr "session-1")
                    eq_refl eq_refl eq_refl eq_refl eq_refl)).
  reflexivity.
Defined.

(** X15, witness: TextGen chosen and the URL entry emptied. *)
Lemma connect_rejects_missing_url_and_unknown_backend_witness :
  let a := textgen_app <| gui -> ollama_url_var := "" |> in
  let a' := run (connect_backend plain_repr plain_repr) a in
  dialogs (gui a') = [Dialog showerror "Error" "TextGen URL is required"]
  ∧ length (sent (net a')) = 1.
Proof.
  cbv zeta.
  set (a := textgen_app <| gui -> ollama_url_var := "" |>).
  destruct (connect_rejects_missing_url_and_unknown_backend plain_repr
              plain_repr a (or_introl (conj eq_refl eq_refl)))
    as (Hsent & _ & _ & _ & Hd).
  split.
  - exact (Hd ({[ "session_id" := JStr "session-1" ]} : dict) eq_refl
             (ex_intro _ (JStr "session-1") eq_refl)).
  - rewrite Hsent. reflexivity.
Defined.

(** X16, witness: the gateway describes the image. *)
Lemma analysis_outcome_is_shown_witness :
  let reply := Response {[ "success" := JBool true;
                           "response" := JStr "A cat on a sofa." ]} in
  let a := ready_app plain_repr plain_repr reply in
  image_analysis_text
    (gui (run (analyze_single_image plain_repr plain_repr "director") a))
  = "A cat on a sofa.".
Proof.
  cbv zeta.
  set (a := ready_app plain_repr plain_repr
              (Response {[ "success" := JBool true;
                           "response" := JStr "A cat on a sofa." ]})).
  assert (available_models (gui a) ≠ []) as Hav by (vm_compute; discriminate).
  assert ("llava" ≠ "") as Hm by discriminate.
  assert ("data:image/png;base64,AAAA" ≠ "") as Hi by discriminate.
  rewrite (proj2 (analysis_outcome_is_shown plain_repr plain_repr "director" a
                    ((new_api default_swarmui_url)
                       <| session_id := JStr "session-1" |>)
                    "llava" "data:image/png;base64,AAAA"
                    eq_refl Hav eq_refl Hm eq_refl Hi)
             ({[ "success" := JBool true;
                 "response" := JStr "A cat on a sofa." ]} : dict)
             (λ r, eq_refl)).
  reflexivity.
Defined.

(** X17, witness: the gateway answers with an empty response, which is
    shown as it is. *)
Lemma enhancement_outcome_is_shown_witness :
  let reply := Response {[ "success" := JBool true; "response" := JStr "" ]} in
  let a := ready_app plain_repr plain_repr reply in
  Py.strip (text_input (gui a)) = "a cat"
  ∧ text_results_text
      (gui (run (enhance_text plain_repr plain_repr "qwen" "wan") a)) = "".
Proof.
  cbv zeta. split; [reflexivity|].
  set (a := ready_app plain_repr plain_repr
              (Response {[ "success" := JBool true; "response" := JStr "" ]})).
  assert (available_models (gui a) ≠ []) as Hav by (vm_compute; discriminate).
  assert ("llava" ≠ "") as Hm by discriminate.
  assert (Py.strip (text_input (gui a)) ≠ "") as Ht
    by (vm_compute; discriminate).
  rewrite (proj2 (enhancement_outcome_is_shown plain_repr plain_repr "qwen" "wan"
                    a
                    ((new_api default_swarmui_url)
                       <| session_id := JStr "session-1" |>)
                    "llava" eq_refl Hav eq_refl Hm Ht)
             ({[ "success" := JBool true; "response" := JStr "" ]} : dict)
             (λ r, eq_refl)).
  reflexivity.
Defined.

(** X18, witness: the gateway refuses the batch and says why in
    [message]; the dialog does not say it. *)
Lemma batch_outcome_is_shown_witness :
  let reply := Response {[ "success" := JBool false;
                           "message" := JStr "Model not found" ]} in
  let a := ready_app plain_repr plain_repr reply in
  folders a (folder_path_var (gui a)) = Some ["a.png"; "notes.txt"]
  ∧ dialogs (gui (run (process_batch plain_repr) a))
    = [Dialog showerror "Batch Processing Error"
         "Error: Unknown error occurred"].
Proof.
  cbv zeta. split; [reflexivity|].
  set (a := ready_app plain_repr plain_repr
              (Response {[ "success" := JBool false;
                           "message" := JStr "Model not found" ]})).
  assert (available_models (gui a) ≠ []) as Hav by (vm_compute; discriminate).
  assert ("llava" ≠ "") as Hm by discriminate.
  assert (folder_path_var (gui a) ≠ "") as Hf by (vm_compute; discriminate).
  assert (List.filter is_image_file ["a.png"; "notes.txt"] ≠ []) as Himg
    by (vm_compute; discriminate).
  pose proof (proj2 (proj2 (batch_outcome_is_shown plain_repr a
                    ((new_api default_swarmui_url)
                       <| session_id := JStr "session-1" |>)
                    "llava" ["a.png"; "notes.txt"]
                    eq_refl Hav eq_refl Hm Hf eq_refl Himg)
             ({[ "success" := JBool false;
                 "message" := JStr "Model not found" ]} : dict)
             (λ r, eq_refl)) eq_refl) as [_ Hshown].
  rewrite Hshown by (vm_compute; reflexivity).
  reflexivity.
Defined.

(** X19, witness: the folder holds a text file only. *)
Lemma batch_without_images_sends_nothing_witness :
  let a := (ready_app plain_repr plain_repr session_reply)
             <| gui -> folder_path_var := "/docs" |> in
  folders a "/docs" = Some ["notes.txt"]
  ∧ length (sent (net (run (process_batch plain_repr) a))) = 3
  ∧ dialogs (gui (run (process_batch plain_repr) a)) = [].
Proof.
  cbv zeta. split; [reflexivity|].
  set (a := (ready_app plain_repr plain_repr session_reply)
              <| gui -> folder_path_var := "/docs" |>).
  assert (available_models (gui a) ≠ []) as Hav by (vm_compute; discriminate).
  assert ("llava" ≠ "") as Hm by discriminate.
  assert (folder_path_var (gui a) ≠ "") as Hf by (vm_compute; discriminate).
  rewrite (proj1 (batch_without_images_sends_nothing plain_repr a "llava"
                    Hav eq_refl Hm Hf)
             ["notes.txt"] eq_refl).
  - split; reflexivity.
  - intros f Hin. apply list_elem_of_singleton in Hin. rewrite Hin. reflexivity.
Defined.

(** X20, witness: a temperature of 0.2 is saved, a key is typed, and the
    settings are loaded again. *)
Lemma auto_save_drops_sampling_parameters_witness :
  let a := openai_app <| gui -> temperature_var := 0.2%float |> in
  temperature_var (gui (run load_settings (run save_settings a))) = 0.2%float
  ∧ temperature_var
      (gui (run load_settings
              (run (type_api_key "sk-new") (run save_settings a))))
    = 0.8%float.
Proof.
  cbv zeta. split; [reflexivity|].
  set (a := openai_app <| gui -> temperature_var := 0.2%float |>).
  exact (proj1 (proj1 (auto_save_drops_sampling_parameters a
                         "sk-new" (type_api_key "sk-new")
                         (list_elem_of_further _ _ _ (list_elem_of_here _ _))))).
Defined.

(** X21, witness: the settings file holds the session id of an earlier
    run. *)
Lemma start_up_shows_no_session_witness :
  let a := (app_with initial_gui three_models_server)
             <| settings_file :=
                  Some (settings_of (initial_gui <| session_id_var := "session-0" |>)) |> in
  session_id_var (gui (run load_settings a)) = "session-0"
  ∧ session_id_var (gui (run (init plain_repr) a)) = "None".
Proof.
  cbv zeta. split; [reflexivity|].
  set (a := (app_with initial_gui three_models_server)
              <| settings_file :=
                   Some (settings_of
                           (initial_gui <| session_id_var := "session-0" |>)) |>).
  exact (proj2 (proj2 (proj2 (start_up_shows_no_session plain_repr a
           (new_api default_swarmui_url) eq_refl))) eq_refl).
Defined.

(** X24, witness: the user connects, picks the second model and makes it
    the default. *)
Lemma default_model_is_saved_at_once_witness :
  let a := run (click_model 1)
             (run (connect_backend plain_repr plain_repr) three_models_app) in
  selected_model (gui a) = Some "llava"
  ∧ default_model_var (gui (run set_as_default_model a)) = "llava".
Proof.
  cbv zeta. split; [reflexivity|].
  assert ("llava" ≠ "") as Hm by discriminate.
  exact (proj1 (default_model_is_saved_at_once
                  (run (click_model 1)
                     (run (connect_backend plain_repr plain_repr)
                        three_models_app))
                  "llava" eq_refl Hm)).
Defined.
